(** * dwd-influxdb: the decoding and source-selection pipeline of [dwd_influx.py]

    A shallow embedding of the loader script.  Python values are modelled as
    follows.

    - A [str] is a Rocq [string]; every [ascii] stands for one code point
      below 256 (text outside that range is outside the model).
    - A [dict] with string keys is a [gmap string pyval].
    - A [float] is a binary64 number (sign, odd mantissa, power of two), an
      infinity, or NaN.
    - Exceptions are the [Raise] results of [res]; code that writes to the
      sink or to the logger runs in the state monad [M].
    - Remote resources are a function from URLs to responses. *)

From Stdlib Require Import ZArith NArith Ascii Lia.
From Stdlib Require String.
From stdpp Require Import base option list strings gmap.

Local Open Scope Z_scope.

(** ** Exceptions and results *)

Inductive exn :=
| ValueError | IndexError | TypeError | KeyError | AttributeError
| OverflowError
| RequestException   (* requests: transport failure or HTTPError *)
| BadZipFile
| CsvError.          (* [_csv.Error] *)

Inductive res (A : Type) :=
| Ok (a : A)
| Raise (e : exn).
Arguments Ok {A} a.
Arguments Raise {A} e.

Definition res_bind {A B} (r : res A) (k : A → res B) : res B :=
  match r with
  | Ok a => k a
  | Raise e => Raise e
  end.

Declare Scope res_scope.
Delimit Scope res_scope with res.
Notation "'let?' x := r 'in' k" := (res_bind r (fun x => k))
  (at level 10, x name, r at level 100, k at level 200) : res_scope.

(** The class expression of an [except] clause.  [Classes cs] is a class or a
    tuple of classes.  [UnionExpr a b] is the expression [a | b]: it is
    evaluated only when an exception reaches the clause, and then either the
    [|] itself fails on two classes or the clause refuses to match against
    the union object; both raise [TypeError] in place of the exception. *)
Inductive exn_class := CException | COf (e : exn).

Inductive except_expr :=
| Classes (cs : list exn_class)
| UnionExpr (a b : exn_class).

Global Instance exn_eq_dec : EqDecision exn.
Proof. solve_decision. Defined.

Definition isinstance (e : exn) (c : exn_class) : bool :=
  match c with
  | CException => true
  | COf e' => bool_decide (e = e')
  end.

(** ** Python string methods *)

Module Str.

Definition code (c : ascii) : N := N_of_ascii c.

(** Whitespace as [str.strip], [int] and [float] see it (code points < 256). *)
Definition is_space (c : ascii) : bool :=
  let n := code c in
  ((9 <=? n) && (n <=? 13) || (28 <=? n) && (n <=? 32)
   || (n =? 133) || (n =? 160))%N.

(** Line boundaries of [str.splitlines] (code points < 256). *)
Definition is_linebreak (c : ascii) : bool :=
  let n := code c in
  ((10 <=? n) && (n <=? 13) || (28 <=? n) && (n <=? 30) || (n =? 133))%N.

Fixpoint lstrip (s : string) : string :=
  match s with
  | String c s' => if is_space c then lstrip s' else s
  | EmptyString => EmptyString
  end.

Definition rstrip (s : string) : string :=
  String.rev (lstrip (String.rev s)).

Definition strip (s : string) : string := rstrip (lstrip s).

Fixpoint startswith (s p : string) : bool :=
  match p, s with
  | EmptyString, _ => true
  | String a p', String b s' => Ascii.eqb a b && startswith s' p'
  | String _ _, EmptyString => false
  end.

Definition endswith (s p : string) : bool :=
  startswith (String.rev s) (String.rev p).

(** [s.split(sep)] for a one-character separator. *)
Fixpoint split (sep : ascii) (s : string) : list string :=
  match s with
  | EmptyString => [EmptyString]
  | String c s' =>
      if Ascii.eqb c sep then EmptyString :: split sep s'
      else match split sep s' with
           | f :: fs => String c f :: fs
           | [] => [String c EmptyString]
           end
  end.

(** [s.replace(a, b)] for one-character [a] and [b]. *)
Fixpoint replace (a b : ascii) (s : string) : string :=
  match s with
  | EmptyString => EmptyString
  | String c s' => String (if Ascii.eqb c a then b else c) (replace a b s')
  end.

(** [s.splitlines()]; [after_cr] remembers that the previous character was
    a carriage return, so that the line feed of a CR LF pair is swallowed. *)
Fixpoint splitlines_go (after_cr : bool) (s : string) : list string :=
  match s with
  | EmptyString => []
  | String c s' =>
      if after_cr && Ascii.eqb c "010" then splitlines_go false s'
      else if is_linebreak c then
        EmptyString :: splitlines_go (Ascii.eqb c "013") s'
      else match splitlines_go false s' with
           | l :: ls => String c l :: ls
           | [] => [String c EmptyString]
           end
  end.

Definition splitlines (s : string) : list string := splitlines_go false s.

Fixpoint zeros (n : nat) : string :=
  match n with
  | O => EmptyString
  | S n' => String "0" (zeros n')
  end.

(** [s.zfill(width)]: zeros go after a leading sign. *)
Definition zfill (width : nat) (s : string) : string :=
  let n := String.length s in
  if (width <=? n)%nat then s
  else match s with
       | String c s' =>
           if Ascii.eqb c "+" || Ascii.eqb c "-"
           then String c (zeros (width - n) +:+ s')
           else zeros (width - n) +:+ s
       | EmptyString => zeros width
       end.

(** The slice [s[n:]]. *)
Fixpoint drop (n : nat) (s : string) : string :=
  match n, s with
  | O, _ => s
  | S n', String _ s' => drop n' s'
  | S _, EmptyString => EmptyString
  end.

Definition join (sep : string) (l : list string) : string :=
  String.concat sep l.

Definition lower_char (c : ascii) : ascii :=
  let n := code c in
  if ((65 <=? n) && (n <=? 90))%N then ascii_of_N (n + 32) else c.

Fixpoint lower (s : string) : string :=
  match s with
  | EmptyString => EmptyString
  | String c s' => String (lower_char c) (lower s')
  end.

(** Truth value of a string: non-empty. *)
Definition nonempty (s : string) : bool :=
  match s with EmptyString => false | String _ _ => true end.

End Str.

(** ** Numeric conversions: [int(str)] and [float(str)] *)

Module Num.

(** Whitespace as [int] and [float] strip it from a [str] (code points
    < 256): the C space characters, and the two non-ASCII spaces, which the
    conversion first turns into blanks.  The separators 0x1c to 0x1f, which
    [str.strip] removes, are not among them. *)
Definition is_space (c : ascii) : bool :=
  let n := Str.code c in
  ((9 <=? n) && (n <=? 13) || (n =? 32) || (n =? 133) || (n =? 160))%N.

Fixpoint lstrip (s : string) : string :=
  match s with
  | String c s' => if is_space c then lstrip s' else s
  | EmptyString => EmptyString
  end.

Definition strip (s : string) : string :=
  String.rev (lstrip (String.rev (lstrip s))).

Definition digit (c : ascii) : option N :=
  let n := Str.code c in
  if ((48 <=? n) && (n <=? 57))%N then Some (n - 48)%N else None.

(** The longest prefix matching [digit (["_"] digit)*], possibly empty,
    with the rest of the string.  An underscore is consumed only between
    two digits. *)
Fixpoint digitpart (s : string) : list N * string :=
  match s with
  | String c s' =>
      match digit c with
      | Some d =>
          match s' with
          | String "_" (String c2 _ as s'') =>
              match digit c2 with
              | Some _ => let '(ds, r) := digitpart s'' in (d :: ds, r)
              | None => ([d], s')
              end
          | _ => let '(ds, r) := digitpart s' in (d :: ds, r)
          end
      | None => ([], s)
      end
  | EmptyString => ([], EmptyString)
  end.

Definition of_digits (ds : list N) : N :=
  fold_left (fun acc d => (10 * acc + d)%N) ds 0%N.

(** An optional sign: [true] for ["-"]. *)
Definition sign (s : string) : bool * string :=
  match s with
  | String "-" s' => (true, s')
  | String "+" s' => (false, s')
  | _ => (false, s)
  end.

(** The interpreter's limit on the digits of an integer literal
    ([sys.int_info.default_max_str_digits]). *)
Definition max_str_digits : nat := 4300.

(** [int(s)] in base 10: surrounding whitespace, an optional sign, digits
    with single underscores between them, at most [max_str_digits] digits.
    [None] is [ValueError]. *)
Definition int_of_str (s : string) : option Z :=
  let '(neg, u) := sign (strip s) in
  match digitpart u with
  | ((_ :: _) as ds, EmptyString) =>
      if (max_str_digits <? length ds)%nat then None
      else
        let n := Z.of_N (of_digits ds) in
        Some (if neg then - n else n)
  | _ => None
  end.

(** A float (binary64): the number [(-1)^neg * mant * 2^exp2], with [mant]
    odd, or zero with [exp2 = 0]; or an infinity; or NaN. *)
Inductive pyfloat :=
| Ffin (neg : bool) (mant : N) (exp2 : Z)
| Finf (neg : bool)
| Fnan.

(** [m * 2^k] with the factors of two moved from [m] to the exponent. *)
Fixpoint odd_part (m : positive) (k : Z) : positive * Z :=
  match m with
  | xO m' => odd_part m' (k + 1)
  | _ => (m, k)
  end.

(** The binary64 nearest to [p / q] (for [0 <= p], [0 < q]), ties to even;
    [e] is the binary exponent of [p / q], [k] the exponent of the last
    place of its 53-bit (or subnormal) mantissa. *)
Definition round_binary64 (neg : bool) (p q : Z) : pyfloat :=
  if p =? 0 then Ffin neg 0 0
  else
    let d := Z.log2 p - Z.log2 q in
    let e :=
      if q * 2 ^ Z.max 0 d <=? p * 2 ^ Z.max 0 (- d) then d else d - 1 in
    if 1023 <? e then Finf neg
    else
      let k := Z.max (e - 52) (- 1074) in
      let num := p * 2 ^ Z.max 0 (- k) in
      let den := q * 2 ^ Z.max 0 k in
      let m := num / den in
      let r := num mod den in
      let m' :=
        if (den <? 2 * r) || ((den =? 2 * r) && Z.odd m) then m + 1 else m in
      if (k =? 971) && (m' =? 2 ^ 53) then Finf neg
      else
        match m' with
        | Z.pos mp => let '(mo, ko) := odd_part mp k in Ffin neg (N.pos mo) ko
        | _ => Ffin neg 0 0
        end.

(** The optional exponent part [("e"|"E") [sign] digitpart]. *)
Definition exponent (s : string) : option (Z * string) :=
  match s with
  | String c s' =>
      if Ascii.eqb (Str.lower_char c) "e" then
        let '(neg, u) := sign s' in
        match digitpart u with
        | ((_ :: _) as ds, r) =>
            let n := Z.of_N (of_digits ds) in
            Some (if neg then - n else n, r)
        | _ => None
        end
      else Some (0, s)
  | EmptyString => Some (0, s)
  end.

(** [float(s)]: surrounding whitespace, an optional sign, then [inf],
    [infinity] or [nan] in any case, or a decimal number with an optional
    exponent, rounded to the nearest binary64.  [None] is [ValueError]. *)
Definition float_of_str (s : string) : option pyfloat :=
  let '(neg, u) := sign (strip s) in
  let w := Str.lower u in
  if bool_decide (w = "inf") || bool_decide (w = "infinity") then
    Some (Finf neg)
  else if bool_decide (w = "nan") then Some Fnan
  else
    let '(ip, r1) := digitpart u in
    let '(fp, r2) :=
      match r1 with
      | String "." r => digitpart r
      | _ => ([], r1)
      end in
    match ip ++ fp with
    | [] => None
    | ds =>
        match exponent r2 with
        | Some (e, EmptyString) =>
            let e10 := e - Z.of_nat (length fp) in
            let n := Z.of_N (of_digits ds) in
            Some (round_binary64 neg (n * 10 ^ Z.max 0 e10)
                    (10 ^ Z.max 0 (- e10)))
        | _ => None
        end
    end.

End Num.

Export Num (pyfloat(..)).


(** ** [datetime] *)

Module Datetime.

(** A naive [datetime] to the minute; seconds and microseconds are zero in
    every instant this program builds. *)
Record datetime := mk {
  year : Z; month : Z; day : Z; hour : Z; minute : Z
}.

Definition is_leap (y : Z) : bool :=
  (y mod 4 =? 0) && (negb (y mod 100 =? 0) || (y mod 400 =? 0)).

Definition days_in_month (y m : Z) : Z :=
  if m =? 2 then (if is_leap y then 29 else 28)
  else if (m =? 4) || (m =? 6) || (m =? 9) || (m =? 11) then 30
  else 31.

(** The constructor [datetime(y, m, d, h, mi)] on integers: an argument
    that does not fit a C int is an [OverflowError], one outside the
    calendar a [ValueError]. *)
Definition make (y m d h mi : Z) : res datetime :=
  if negb ((- 2 ^ 31 <=? y) && (y <? 2 ^ 31)) then Raise OverflowError
  else if (1 <=? y) && (y <=? 9999) && (1 <=? m) && (m <=? 12)
       && (1 <=? d) && (d <=? days_in_month y m)
       && (0 <=? h) && (h <=? 23) && (0 <=? mi) && (mi <=? 59)
  then Ok (mk y m d h mi)
  else Raise ValueError.

(** *** [datetime.strptime(s, "%Y%m%d%H%M")]

    The format compiles to a regular expression, one group per directive.
    A group is modelled by the list of its matches at the head of the
    input, in the order the backtracking matcher tries them. *)
Definition matcher := string → list (Z * string).

(** One digit in the class [[lo-hi]]. *)
Definition dig (lo hi : N) : matcher := fun s =>
  match s with
  | String c r =>
      match Num.digit c with
      | Some d => if ((lo <=? d) && (d <=? hi))%N then [(Z.of_N d, r)] else []
      | None => []
      end
  | EmptyString => []
  end.

Definition blank : matcher := fun s =>
  match s with
  | String c r => if Ascii.eqb c " " then [(0, r)] else []
  | EmptyString => []
  end.

(** Two matchers in sequence; the value reads the two as decimal digits. *)
Definition seq2 (p q : matcher) : matcher := fun s =>
  '(a, r) ← p s; '(b, r') ← q r; [(10 * a + b, r')].

Definition alt (p q : matcher) : matcher := fun s => p s ++ q s.

(** [%Y] is [\d\d\d\d]. *)
Definition dY : matcher :=
  seq2 (seq2 (seq2 (dig 0 9) (dig 0 9)) (dig 0 9)) (dig 0 9).
(** [%m] is [1[0-2]|0[1-9]|[1-9]]. *)
Definition dm : matcher :=
  alt (seq2 (dig 1 1) (dig 0 2)) (alt (seq2 (dig 0 0) (dig 1 9)) (dig 1 9)).
(** [%d] is [3[0-1]|[1-2]\d|0[1-9]|[1-9]| [1-9]]. *)
Definition dd : matcher :=
  alt (seq2 (dig 3 3) (dig 0 1))
    (alt (seq2 (dig 1 2) (dig 0 9))
       (alt (seq2 (dig 0 0) (dig 1 9))
          (alt (dig 1 9) (seq2 blank (dig 1 9))))).
(** [%H] is [2[0-3]|[0-1]\d|\d]. *)
Definition dH : matcher :=
  alt (seq2 (dig 2 2) (dig 0 3)) (alt (seq2 (dig 0 1) (dig 0 9)) (dig 0 9)).
(** [%M] is [[0-5]\d|\d]. *)
Definition dM : matcher := alt (seq2 (dig 0 5) (dig 0 9)) (dig 0 9).

(** All matches of the whole pattern at the head of [s], first match
    first, each with the unconsumed rest. *)
Definition matches (s : string) : list (Z * Z * Z * Z * Z * string) :=
  '(y, r1) ← dY s; '(m, r2) ← dm r1; '(d, r3) ← dd r2;
  '(h, r4) ← dH r3; '(mi, r5) ← dM r4; [(y, m, d, h, mi, r5)].

(** The first match is taken; data left over after it, no match at all, or
    a date outside the calendar is a [ValueError]. *)
Definition strptime (s : string) : res datetime :=
  match matches s with
  | (y, m, d, h, mi, EmptyString) :: _ => make y m d h mi
  | _ => Raise ValueError
  end.

End Datetime.

Export Datetime (datetime).

(** ** [csv.reader(lines, delimiter=";")] *)

Module Csv.

(** The reader's parser states (excel dialect, not strict).  The lines come
    from [splitlines] and hold no carriage return or line feed, so the
    states that eat line ends are not reached and are left out. *)
Inductive pstate :=
| START_RECORD | START_FIELD | IN_FIELD
| IN_QUOTED_FIELD | QUOTE_IN_QUOTED_FIELD.

Global Instance pstate_eq_dec : EqDecision pstate.
Proof. solve_decision. Defined.

Record reader := mk {
  state : pstate;
  field : string;          (* characters of the current field, reversed *)
  field_len : N;           (* their number *)
  fields : list string     (* fields of the current record, reversed *)
}.

Definition reset : reader := mk START_RECORD EmptyString 0 [].

Definition quotechar : ascii := "034"%char.

(** [csv.field_size_limit()]: a character added to a field that already
    holds this many is an error. *)
Definition field_limit : N := 131072.

(** [None] is [_csv.Error]: field larger than field limit. *)
Definition add_char (c : ascii) (r : reader) : option reader :=
  if (field_limit <=? field_len r)%N then None
  else Some (mk (state r) (String c (field r)) (field_len r + 1) (fields r)).

Definition save_field (r : reader) : reader :=
  mk (state r) EmptyString 0 (String.rev (field r) :: fields r).

Definition goto (st : pstate) (r : reader) : reader :=
  mk st (field r) (field_len r) (fields r).

(** One step of the parser; the character [None] is the end of the line,
    the result [None] is [_csv.Error]. *)
Definition start_field (delim : ascii) (r : reader) (c : option ascii)
    : option reader :=
  match c with
  | None => Some (goto START_RECORD (save_field r))
  | Some ch =>
      if Ascii.eqb ch quotechar then Some (goto IN_QUOTED_FIELD r)
      else if Ascii.eqb ch delim then Some (save_field r)
      else goto IN_FIELD <$> add_char ch r
  end.

Definition process_char (delim : ascii) (r : reader) (c : option ascii)
    : option reader :=
  match state r with
  | START_RECORD =>
      match c with
      | None => Some r
      | Some _ => start_field delim (goto START_FIELD r) c
      end
  | START_FIELD => start_field delim r c
  | IN_FIELD =>
      match c with
      | None => Some (goto START_RECORD (save_field r))
      | Some ch =>
          if Ascii.eqb ch delim then Some (goto START_FIELD (save_field r))
          else add_char ch r
      end
  | IN_QUOTED_FIELD =>
      match c with
      | None => Some r
      | Some ch =>
          if Ascii.eqb ch quotechar then Some (goto QUOTE_IN_QUOTED_FIELD r)
          else add_char ch r
      end
  | QUOTE_IN_QUOTED_FIELD =>
      match c with
      | None => Some (goto START_RECORD (save_field r))
      | Some ch =>
          if Ascii.eqb ch quotechar
          then goto IN_QUOTED_FIELD <$> add_char ch r
          else if Ascii.eqb ch delim
          then Some (goto START_FIELD (save_field r))
          else goto IN_FIELD <$> add_char ch r
      end
  end.

Fixpoint feed (delim : ascii) (r : reader) (s : string) : option reader :=
  match s with
  | EmptyString => Some r
  | String c s' =>
      match process_char delim r (Some c) with
      | Some r' => feed delim r' s'
      | None => None
      end
  end.

(** The rows the reader yields, and whether it then raises [_csv.Error]
    instead of ending.  A record ends with the line on which the parser is
    back in [START_RECORD]; a quoted field left open runs on into the next
    line, and at the end of the input closes the last row. *)
Fixpoint rows_go (delim : ascii) (r : reader) (lines : list string)
    : list (list string) * bool :=
  match lines with
  | [] =>
      (if negb (field_len r =? 0)%N || bool_decide (state r = IN_QUOTED_FIELD)
       then [rev (fields (save_field r))]
       else [], false)
  | l :: ls =>
      match feed delim r l with
      | None => ([], true)
      | Some r1 =>
          match process_char delim r1 None with
          | None => ([], true)
          | Some r' =>
              if bool_decide (state r' = START_RECORD)
              then
                let '(rows, err) := rows_go delim reset ls in
                (rev (fields r') :: rows, err)
              else rows_go delim r' ls
          end
      end
  end.

Definition reader_rows (delim : ascii) (lines : list string)
    : list (list string) * bool :=
  rows_go delim reset lines.

End Csv.


(** ** Values, records and points *)

Inductive pyval :=
| VNone
| VStr (s : string)
| VFloat (f : pyfloat)
| VTime (t : datetime).

Global Instance pyfloat_eq_dec : EqDecision pyfloat.
Proof. solve_decision. Defined.
Global Instance datetime_eq_dec : EqDecision datetime.
Proof. solve_decision. Defined.
Global Instance pyval_eq_dec : EqDecision pyval.
Proof. solve_decision. Defined.

(** Truth value, as an [if] tests it. *)
Definition truthy (v : pyval) : bool :=
  match v with
  | VNone => false
  | VStr s => Str.nonempty s
  | VFloat (Ffin _ m _) => negb (m =? 0)%N
  | VFloat _ => true
  | VTime _ => true
  end.

(** A decoded record: a [dict] from attribute names to values. *)
Abbreviation entry := (gmap string pyval).

(** [influxdb_client.Point] (the client library's class), as this program
    uses it: [tag], [time] and [field] store what they are given. *)
Record Point := mkPoint {
  p_name : string;
  p_tags : gmap string pyval;
  p_time : option pyval;
  p_fields : gmap string pyval
}.

Module Pt.
Definition new (measurement : string) : Point :=
  mkPoint measurement ∅ None ∅.
Definition tag (k : string) (v : pyval) (p : Point) : Point :=
  mkPoint (p_name p) (<[k := v]> (p_tags p)) (p_time p) (p_fields p).
Definition time (t : pyval) (p : Point) : Point :=
  mkPoint (p_name p) (p_tags p) (Some t) (p_fields p).
Definition field (k : string) (v : pyval) (p : Point) : Point :=
  mkPoint (p_name p) (p_tags p) (p_time p) (<[k := v]> (p_fields p)).
End Pt.

(** ** The state the program acts on: the sink and the logger *)

Inductive level := WARNING | ERROR.

(** A log record: level and message template (arguments are not rendered;
    records below warning level are not tracked). *)
Abbreviation logrec := (level * string)%type.

Record state := mkState {
  sink : list (list Point);   (* the batches written, oldest first *)
  log : list logrec           (* the records logged, oldest first *)
}.

Definition M (A : Type) : Type := state → res A * state.

Definition ret {A} (a : A) : M A := fun st => (Ok a, st).

Definition bind {A B} (m : M A) (k : A → M B) : M B := fun st =>
  match m st with
  | (Ok a, st') => k a st'
  | (Raise e, st') => (Raise e, st')
  end.

Definition raise {A} (e : exn) : M A := fun st => (Raise e, st).

Definition lift {A} (r : res A) : M A := fun st => (r, st).

Declare Scope m_scope.
Delimit Scope m_scope with M.
Bind Scope m_scope with M.
Notation "'let!' x := m 'in' k" := (bind m (fun x => k))
  (at level 10, x name, m at level 100, k at level 200) : m_scope.
Notation "m ;; k" := (bind m (fun _ => k))
  (at level 100, right associativity) : m_scope.

(** [try: body except cl: handler], with the clause's class expression
    evaluated when an exception reaches it (see [except_expr]). *)
Definition try_m {A} (body : M A) (cl : except_expr) (handler : exn → M A)
    : M A := fun st =>
  match body st with
  | (Ok a, st') => (Ok a, st')
  | (Raise e, st') =>
      match cl with
      | Classes cs =>
          if existsb (isinstance e) cs then handler e st' else (Raise e, st')
      | UnionExpr _ _ => (Raise TypeError, st')
      end
  end.

Definition logger (l : level) (template : string) : M unit := fun st =>
  (Ok tt, mkState (sink st) (log st ++ [(l, template)])).

(** [write_api.write(record=points)]; the sink accepts every batch. *)
Definition sink_write (points : list Point) : M unit := fun st =>
  (Ok tt, mkState (sink st ++ [points]) (log st)).

(** A [for] loop that carries [acc]; [continue] is an early [ret]. *)
Fixpoint foldM {A B} (f : B → A → M B) (xs : list A) (acc : B) : M B :=
  match xs with
  | [] => ret acc
  | x :: xs' => (let! acc' := f acc x in foldM f xs' acc')%M
  end.

Definition for_each {A} (xs : list A) (f : A → M unit) : M unit :=
  foldM (fun _ x => f x) xs tt.

(** ** Conversions that raise *)

(** [parts[i]] on a list. *)
Definition index (parts : list string) (i : nat) : res string :=
  match parts !! i with
  | Some x => Ok x
  | None => Raise IndexError
  end.

(** [row[k]] on a dict. *)
Definition getitem (row : entry) (k : string) : res pyval :=
  match row !! k with
  | Some v => Ok v
  | None => Raise KeyError
  end.

Definition float (s : string) : res pyfloat :=
  match Num.float_of_str s with
  | Some f => Ok f
  | None => Raise ValueError
  end.

Definition int (s : string) : res Z :=
  match Num.int_of_str s with
  | Some n => Ok n
  | None => Raise ValueError
  end.

(** A string method called on a value. *)
Definition as_str (v : pyval) : res string :=
  match v with
  | VStr s => Ok s
  | _ => Raise AttributeError
  end.

(** ** Format decoders *)

(** [float(parts[i].replace(",", "."))]. *)
Definition month_value (parts : list string) (i : nat) : res pyfloat :=
  (let? p := index parts i in float (Str.replace "," "." p))%res.

(** The [try] body of [parse_multi_annual_means] up to the record it
    appends. *)
Definition multi_annual_record (parts : list string) : res entry :=
  (let? station_id := index parts 0 in
   let? ref_period := index parts 1 in
   let? jan_val := month_value parts 3 in
   let? feb_val := month_value parts 4 in
   let? mar_val := month_value parts 5 in
   let? apr_val := month_value parts 6 in
   let? may_val := month_value parts 7 in
   let? jun_val := month_value parts 8 in
   let? jul_val := month_value parts 9 in
   let? aug_val := month_value parts 10 in
   let? sep_val := month_value parts 11 in
   let? oct_val := month_value parts 12 in
   let? nov_val := month_value parts 13 in
   let? dec_val := month_value parts 14 in
   let? p15 := index parts 15 in
   let? year_val :=
     (if Str.nonempty p15
      then let? f := float (Str.replace "," "." p15) in Ok (VFloat f)
      else Ok VNone) in
   Ok (list_to_map
         [("station_id", VStr station_id);
          ("reference_period", VStr ref_period);
          ("Jan", VFloat jan_val); ("Feb", VFloat feb_val);
          ("Mar", VFloat mar_val); ("Apr", VFloat apr_val);
          ("May", VFloat may_val); ("Jun", VFloat jun_val);
          ("Jul", VFloat jul_val); ("Aug", VFloat aug_val);
          ("Sep", VFloat sep_val); ("Oct", VFloat oct_val);
          ("Nov", VFloat nov_val); ("Dec", VFloat dec_val);
          ("Year", year_val)] : entry))%res.

Definition malformed : except_expr := Classes [COf IndexError; COf ValueError].

(** One turn of the loop over the lines. *)
Definition parse_multi_annual_means_step (results : list entry)
    (line0 : string) : M (list entry) :=
  let line := Str.strip line0 in
  if negb (Str.nonempty line) || Str.startswith line "Stations_id"
  then ret results
  else
    let parts := Str.strip <$> Str.split ";" line in
    try_m (let! r := lift (multi_annual_record parts) in
           ret (results ++ [r]))%M
      malformed
      (fun _ =>
         (logger WARNING "Skipping malformed line: %s; Error: %s" ;;
          ret results)%M).

Definition parse_multi_annual_means (content : string) : M (list entry) :=
  foldM parse_multi_annual_means_step (Str.splitlines content) [].

(** [float(tok) if tok != "-999" else None]. *)
Definition sentinel_float (tok : string) : res pyval :=
  if bool_decide (tok ≠ "-999")
  then (let? f := float tok in Ok (VFloat f))%res
  else Ok VNone.

(** The header test at the top of both ten-minute loops:
    [not row or row[0].startswith("STATIONS_ID")]. *)
Definition skipped_row (row : list string) : bool :=
  match row with
  | [] => true
  | c0 :: _ => Str.startswith c0 "STATIONS_ID"
  end.

(** The [try] body of [parse_10min_precip]: [None] is the [continue] taken
    for a missing value. *)
Definition precip_record (row : list string) : res (option entry) :=
  (let? c0 := index row 0 in
   let station_id := Str.strip c0 in
   let? c1 := index row 1 in
   let mess_datum := Str.strip c1 in
   let? c4 := index row 4 in
   let rws_10 := Str.strip c4 in
   let? dt := Datetime.strptime mess_datum in
   let? precip_val := sentinel_float rws_10 in
   match precip_val with
   | VNone => Ok None
   | _ =>
       Ok (Some (list_to_map
                   [("station_id", VStr station_id); ("time", VTime dt);
                    ("precip_10min", precip_val)] : entry))
   end)%res.

Definition parse_10min_precip_step (out : list entry) (row : list string)
    : M (list entry) :=
  if skipped_row row then ret out
  else
    try_m (let! r := lift (precip_record row) in
           ret (out ++ option_list r))%M
      malformed
      (fun _ =>
         (logger WARNING "Skipping row in temperature data: %s; Error: %s" ;;
          ret out)%M).

(** The loop runs over the rows the reader yields; when the reader raises,
    the exception leaves the function. *)
Definition parse_10min_precip (csv_content : string) : M (list entry) :=
  let reader := Csv.reader_rows ";" (Str.splitlines csv_content) in
  (let! out := foldM parse_10min_precip_step reader.1 [] in
   if reader.2 then raise CsvError else ret out)%M.

(** The [try] body of [parse_10min_temp]: [None] is the [continue] taken
    when both values are missing. *)
Definition temp_record (row : list string) : res (option entry) :=
  (let? c0 := index row 0 in
   let station_id := Str.strip c0 in
   let? c1 := index row 1 in
   let mess_datum := Str.strip c1 in
   let? c4 := index row 4 in
   let tt_10 := Str.strip c4 in
   let? c6 := index row 6 in
   let rf_10 := Str.strip c6 in
   let? dt := Datetime.strptime mess_datum in
   let? temp_val := sentinel_float tt_10 in
   let? rh_val := sentinel_float rf_10 in
   match temp_val, rh_val with
   | VNone, VNone => Ok None
   | _, _ =>
       Ok (Some (list_to_map
                   [("station_id", VStr station_id); ("time", VTime dt);
                    ("temperature_10min", temp_val);
                    ("humidity_10min", rh_val)] : entry))
   end)%res.

Definition parse_10min_temp_step (out : list entry) (row : list string)
    : M (list entry) :=
  if skipped_row row then ret out
  else
    try_m (let! r := lift (temp_record row) in
           ret (out ++ option_list r))%M
      malformed
      (fun _ => ret out).

Definition parse_10min_temp (csv_content : string) : M (list entry) :=
  let reader := Csv.reader_rows ";" (Str.splitlines csv_content) in
  (let! out := foldM parse_10min_temp_step reader.1 [] in
   if reader.2 then raise CsvError else ret out)%M.


(** ** Point builder *)

(** The records of a list are objects the builder mutates in place: a
    [heap] holds the dicts, a list of records is a list of references into
    it.  A list may hold the same dict more than once. *)
Abbreviation heap := (list entry).

(** [entry.pop(k, None)]: the value removed, and the dict without [k]. *)
Definition pop (k : string) (e : entry) : pyval * entry :=
  (default VNone (e !! k), delete k e).

(** [station_map and station_id in station_map and station_map[station_id]]:
    the name to tag with, if any.  An absent map is the empty one. *)
Definition station_name (station_map : gmap string string) (station_id : pyval)
    : option string :=
  match station_id with
  | VStr s =>
      match station_map !! s with
      | Some name => if Str.nonempty name then Some name else None
      | None => None
      end
  | _ => None
  end.

(** The body of the loop of [write_points_to_influx] on one record: the point
    built, and the record as the two [pop]s leave it. *)
Definition build_point (measurement : string)
    (station_map : gmap string string) (e : entry) : Point * entry :=
  let '(station_id, e1) := pop "station_id" e in
  let '(tstamp, e2) := pop "time" e1 in
  let p := Pt.new measurement in
  let p :=
    if truthy station_id then
      let p := Pt.tag "station_id" station_id p in
      match station_name station_map station_id with
      | Some name => Pt.tag "station_name" (VStr name) p
      | None => p
      end
    else p in
  let p := if truthy tstamp then Pt.time tstamp p else p in
  let p := map_fold Pt.field p e2 in
  (p, e2).

(** The loop over [data_list]; every reference is live (the [None] case
    does not occur for references to objects). *)
Fixpoint build_points (measurement : string)
    (station_map : gmap string string) (h : heap) (data_list : list nat)
    : list Point * heap :=
  match data_list with
  | [] => ([], h)
  | l :: ls =>
      match h !! l with
      | Some e =>
          let '(p, e') := build_point measurement station_map e in
          let '(ps, h') :=
            build_points measurement station_map (<[l := e']> h) ls in
          (p :: ps, h')
      | None => build_points measurement station_map h ls
      end
  end.

(** [write_points_to_influx]: returns the heap as the call leaves it. *)
Definition write_points_to_influx (h : heap) (data_list : list nat)
    (measurement : string) (station_map : gmap string string) : M heap :=
  let '(points, h') := build_points measurement station_map h data_list in
  match points with
  | [] => ret h'
  | _ => (sink_write points ;; ret h')%M
  end.

(** A call on a list of records nobody else refers to (fresh from a
    decoder): the list is the heap, the references are its positions. *)
Definition write_fresh (records : list entry) (measurement : string)
    (station_map : gmap string string) : M unit :=
  (write_points_to_influx records (seq 0 (length records))
     measurement station_map ;; ret tt)%M.

(** ** Remote resources *)

(** The body of a response, seen through the decoders the program applies to
    it: its text ([bytes.decode("utf-8", errors="ignore")]), its archive
    members with their text if it is a zip archive, and the [href]
    attributes of its [<a>] elements. *)
Record payload := mkPayload {
  text : string;
  members : option (list (string * string));
  hrefs : list (option string)
}.

Inductive response :=
| Body (p : payload)
| BadStatus        (* [raise_for_status] raises *)
| NoConnection.    (* [requests.get] raises *)

Abbreviation remote := (string → response).

Definition download_file (net : remote) (url : string) : M payload :=
  match net url with
  | Body p => ret p
  | BadStatus =>
      (logger ERROR "Error downloading %s: %s" ;; raise RequestException)%M
  | NoConnection => raise RequestException
  end.

(** ** Constants *)

Inductive data_type := precipitation | temperature.

Definition data_type_name (dt : data_type) : string :=
  match dt with
  | precipitation => "precipitation"
  | temperature => "temperature"
  end.

Definition BASE_URL : string :=
  "https://opendata.dwd.de/climate_environment/CDC/observations_germany/climate".

Definition PERIOD_STRINGS : list string :=
  ["1961-1990"; "1971-2000"; "1981-2010"; "1991-2020"].

Definition MULTI_ANNUAL_MEANS_URL : string := BASE_URL +:+ "/multi_annual".

(** [MULTI_ANNUAL_TEMPLATES[data_type].format(short_period=.., period=..)]. *)
Definition MULTI_ANNUAL_TEMPLATES (dt : data_type)
    (short_period period : string) : string :=
  MULTI_ANNUAL_MEANS_URL +:+ "/mean_" +:+ short_period +:+
  match dt with
  | precipitation => "/Niederschlag_"
  | temperature => "/Temperatur_"
  end +:+ period +:+ ".txt".

Definition TEN_MINUTE_DATA_URL (dt : data_type) : string :=
  match dt with
  | precipitation => BASE_URL +:+ "/10_minutes/precipitation"
  | temperature => BASE_URL +:+ "/10_minutes/air_temperature"
  end.

Definition HISTORICAL_URLS (dt : data_type) : string :=
  TEN_MINUTE_DATA_URL dt +:+ "/historical/".
Definition RECENT_URLS (dt : data_type) : string :=
  TEN_MINUTE_DATA_URL dt +:+ "/recent/".
Definition NOW_URLS (dt : data_type) : string :=
  TEN_MINUTE_DATA_URL dt +:+ "/now/".

(** [f"10minutenwerte_{'nieder' if data_type == 'precipitation' else 'TU'}_"]. *)
Definition type_prefix (dt : data_type) : string :=
  "10minutenwerte_" +:+
  match dt with precipitation => "nieder" | temperature => "TU" end +:+ "_".

(** ** Main logic *)

(** The test [href and href.startswith(prefix) and href.endswith(suffix)] on
    the [href] of one link. *)
Definition matching_href (prefix suffix : string) (href : option string)
    : option string :=
  match href with
  | Some h =>
      if Str.nonempty h && Str.startswith h prefix && Str.endswith h suffix
      then Some h else None
  | None => None
  end.

Definition list_dwd_files (net : remote) (base_url prefix suffix : string)
    : M (list string) :=
  (let! page := download_file net base_url in
   ret (omap (matching_href prefix suffix) (hrefs page)))%M.

Definition fetch_and_write_zip (net : remote) (full_url : string)
    (dt : data_type) (station_map : gmap string string) : M unit :=
  (let! zip_content :=
     try_m (let! c := download_file net full_url in ret (Some c))
       (Classes [CException])
       (fun _ => logger ERROR "Could not download %s: %s" ;; ret None) in
   match zip_content with
   | None => ret tt
   | Some c =>
       match members c with
       | None => raise BadZipFile
       | Some infolist =>
           for_each infolist (fun '(filename, txt) =>
             if Str.endswith filename ".txt" then
               match dt with
               | precipitation =>
                   let! parsed := parse_10min_precip txt in
                   write_fresh parsed "precip_10min" station_map
               | temperature =>
                   let! parsed := parse_10min_temp txt in
                   write_fresh parsed "temp_10min" station_map
               end
             else ret tt)
       end
   end)%M.

(** [station_ids and station_id not in station_ids]; an absent or empty
    roster filters nothing. *)
Definition filtered_out (station_ids : option (list string))
    (station_id : pyval) : bool :=
  match station_ids with
  | Some ((_ :: _) as ids) => negb (bool_decide (station_id ∈ VStr <$> ids))
  | _ => false
  end.

Definition month_keys : list (Z * string) :=
  [(1, "Jan"); (2, "Feb"); (3, "Mar"); (4, "Apr"); (5, "May"); (6, "Jun");
   (7, "Jul"); (8, "Aug"); (9, "Sep"); (10, "Oct"); (11, "Nov"); (12, "Dec")].

(** The twelve lookups that build [month_values]. *)
Fixpoint month_values_of (row : entry) (keys : list (Z * string))
    : res (list (Z * pyval)) :=
  match keys with
  | [] => Ok []
  | (n, k) :: keys' =>
      (let? v := getitem row k in
       let? vs := month_values_of row keys' in
       Ok ((n, v) :: vs))%res
  end.

(** [int(ref_period.split("-")[0])] *)
Definition start_year_of (ref_period : pyval) : res Z :=
  (let? s := as_str ref_period in
   let? y := index (Str.split "-" s) 0 in
   int y)%res.

(** The inner loop over the months: one record per month. *)
Definition month_point (station_id ref_period : pyval) (start_year : Z)
    (mv : Z * pyval) : res entry :=
  (let? synthetic_ts := Datetime.make start_year mv.1 1 0 0 in
   Ok (list_to_map
         [("station_id", station_id); ("time", VTime synthetic_ts);
          ("reference_period", ref_period); ("value", mv.2)] : entry))%res.

Fixpoint month_points (station_id ref_period : pyval) (start_year : Z)
    (mvs : list (Z * pyval)) (data_points : list entry) : res (list entry) :=
  match mvs with
  | [] => Ok data_points
  | mv :: mvs' =>
      (let? p := month_point station_id ref_period start_year mv in
       month_points station_id ref_period start_year mvs'
         (data_points ++ [p]))%res
  end.

(** One turn of the loop over the decoded rows of a file.  The clause of the
    [try] around the start year is written [except ValueError | TypeError]. *)
Definition multi_annual_row_step (station_ids : option (list string))
    (data_points : list entry) (row : entry) : M (list entry) :=
  (let! station_id := lift (getitem row "station_id") in
   if filtered_out station_ids station_id then ret data_points
   else
     let! ref_period := lift (getitem row "reference_period") in
     let! month_values := lift (month_values_of row month_keys) in
     let! start_year :=
       try_m (let! y := lift (start_year_of ref_period) in ret (Some y))
         (UnionExpr (COf ValueError) (COf TypeError))
         (fun _ =>
            logger WARNING "Skipping row with invalid reference period: %s" ;;
            ret None) in
     match start_year with
     | None => ret data_points
     | Some y =>
         lift (month_points station_id ref_period y month_values data_points)
     end)%M.

(** ["-".join([year[2:] for year in period.split("-")])] *)
Definition short_period_of (period : string) : string :=
  Str.join "-" (Str.drop 2 <$> Str.split "-" period).

Definition fetch_multi_annual_means (net : remote) (dt : data_type)
    (station_map : gmap string string) (station_ids : option (list string))
    : M unit :=
  let measurement_name := "multi_annual_" +:+ data_type_name dt in
  for_each PERIOD_STRINGS (fun period =>
    let url := MULTI_ANNUAL_TEMPLATES dt (short_period_of period) period in
    (let! content := download_file net url in
     let! rows := parse_multi_annual_means (text content) in
     let! data_points := foldM (multi_annual_row_step station_ids) rows [] in
     write_fresh data_points measurement_name station_map)%M).

(** [[fn for fn in all_filenames if fn.startswith(station_prefix)]] with
    [station_prefix = f"{prefix}{station_id.zfill(5)}_"]. *)
Definition station_files (prefix : string) (all_filenames : list string)
    (station_id : string) : list string :=
  let padded_id := Str.zfill 5 station_id in
  let station_prefix := prefix +:+ padded_id +:+ "_" in
  List.filter (fun fn => Str.startswith fn station_prefix) all_filenames.

Definition fetch_historical_10min_data (net : remote)
    (station_ids : list string) (dt : data_type)
    (station_map : gmap string string) : M unit :=
  let base_url := HISTORICAL_URLS dt in
  let prefix := type_prefix dt in
  let suffix := "_hist.zip" in
  (let! all_filenames := list_dwd_files net base_url prefix suffix in
   for_each station_ids (fun station_id =>
     for_each (station_files prefix all_filenames station_id)
       (fun zipfile_name =>
          fetch_and_write_zip net (base_url +:+ zipfile_name) dt station_map)))%M.

Inductive period_kind := recent | now.

(** The archive name [fetch_recent_or_now_10min_data] builds for a station. *)
Definition recent_or_now_name (dt : data_type) (period : period_kind)
    (station_id : string) : string :=
  let suffix := match period with recent => "_akt.zip" | now => "_now.zip" end in
  type_prefix dt +:+ station_id +:+ suffix.

Definition fetch_recent_or_now_10min_data (net : remote)
    (station_ids : list string) (dt : data_type) (period : period_kind)
    (station_map : gmap string string) : M unit :=
  let base_url :=
    match period with recent => RECENT_URLS dt | now => NOW_URLS dt end in
  for_each station_ids (fun station_id =>
    fetch_and_write_zip net
      (base_url +:+ recent_or_now_name dt period station_id) dt station_map).

(** ** Entry point *)

Inductive mode := init | tracking | historical.

(** An item of the [stations] list of the configuration: a bare id, or a
    mapping with an [id] and a [name] (a missing name reads as the empty
    string). *)
Inductive station_item :=
| ItemStr (id : string)
| ItemDict (id name : string).

Inductive stations_config :=
| StationsList (items : list station_item)
| StationsOther.

Definition is_dict (i : station_item) : bool :=
  match i with ItemDict _ _ => true | ItemStr _ => false end.

Definition item_id (i : station_item) : string :=
  match i with ItemDict id _ => id | ItemStr id => id end.

(** The roster as [main] reads it: [station_ids] and [station_map].  In the
    fallback branch a mapping among the items cannot be a key of
    [station_map]. *)
Definition read_stations (items : list station_item)
    : res (list string * gmap string string) :=
  if forallb is_dict items then
    Ok (item_id <$> items,
        foldl (fun m i =>
                 match i with
                 | ItemDict id name => <[id := name]> m
                 | ItemStr _ => m
                 end) ∅ items)
  else if existsb is_dict items then Raise TypeError
  else
    Ok (item_id <$> items,
        foldl (fun m i => <[item_id i := EmptyString]> m) ∅ items).

Definition main (net : remote) (md : mode) (cfg : stations_config) : M unit :=
  match cfg with
  | StationsOther => logger ERROR "Invalid stations configuration format"
  | StationsList items =>
      (let! roster := lift (read_stations items) in
       let '(station_ids, station_map) := roster in
       match md with
       | init =>
           fetch_multi_annual_means net precipitation station_map None ;;
           fetch_multi_annual_means net temperature station_map None ;;
           fetch_recent_or_now_10min_data net station_ids precipitation
             recent station_map ;;
           fetch_recent_or_now_10min_data net station_ids temperature
             recent station_map
       | historical =>
           fetch_historical_10min_data net station_ids precipitation
             station_map ;;
           fetch_historical_10min_data net station_ids temperature station_map
       | tracking =>
           fetch_recent_or_now_10min_data net station_ids precipitation
             now station_map ;;
           fetch_recent_or_now_10min_data net station_ids temperature
             now station_map
       end)%M
  end.


(** ** Predicates and inputs of the statements *)

(** The listing of the example: one precipitation and one temperature
    archive of station 91. *)
Definition example_listing : payload :=
  mkPayload EmptyString None
    [Some "10minutenwerte_nieder_00091_19950101_20201231_hist.zip";
     Some "10minutenwerte_TU_00091_..._hist.zip"].

(** The remote on which every URL answers with [example_listing]. *)
Definition net_listing : remote := fun _ => Body example_listing.

(** The archives of historical mode: for each station of the roster in
    turn, the names [station_files] selects for it, in listing order. *)
Definition historical_plan (prefix : string) (all_filenames : list string)
    (station_ids : list string) : list (string * string) :=
  station_ids ≫= (fun station_id =>
    (fun fn => (station_id, fn))
      <$> station_files prefix all_filenames station_id).

(** A line without any of the characters [splitlines] splits on. *)
Fixpoint no_linebreak (s : string) : bool :=
  match s with
  | EmptyString => true
  | String c s' => negb (Str.is_linebreak c) && no_linebreak s'
  end.

(** A record without [station_id] and [time]. *)
Definition stripped (e : entry) : Prop :=
  e !! "station_id" = None ∧ e !! "time" = None.

(** A value token the decoder accepts: the sentinel, or a float literal. *)
Definition token_ok (tok : string) : bool :=
  bool_decide (tok = "-999") || bool_decide (is_Some (Num.float_of_str tok)).

(** A row of the temperature file that is not the header, has the columns the
    decoder reads, a timestamp [strptime] accepts, and two value tokens. *)
Definition well_formed_temp_row (row : list string) : bool :=
  negb (skipped_row row)
  && match row !! 1%nat, row !! 4%nat, row !! 6%nat with
     | Some c1, Some c4, Some c6 =>
         match Datetime.strptime (Str.strip c1) with
         | Ok _ => true
         | Raise _ => false
         end
         && token_ok (Str.strip c4) && token_ok (Str.strip c6)
     | _, _, _ => false
     end.

(** A line whose January token is the sentinel. *)
Definition sentinel_line : string :=
  "00091;1961-1990;DWD;-999;2,0;3,0;4,0;5,0;6,0;7,0;8,0;9,0;10,0;11,0;12,0;78,0;".

(** The record the synthesizer builds for one month. *)
Definition month_entry (station_id ref_period : pyval) (start_year : Z)
    (mv : Z * pyval) : entry :=
  list_to_map
    [("station_id", station_id);
     ("time", VTime (Datetime.mk start_year mv.1 1 0 0));
     ("reference_period", ref_period); ("value", mv.2)].

(** A fetch that raises: a bad status, or no response at all. *)
Definition failed (r : response) : bool :=
  match r with
  | Body _ => false
  | BadStatus | NoConnection => true
  end.

(** The state a run starts in: nothing written, nothing logged. *)
Definition st0 : state := mkState [] [].

(** The points in the sink that carry a given station tag. *)
Definition points_of_station (station_id : string) (st : state) : list Point :=
  List.filter
    (fun p => bool_decide (p_tags p !! "station_id" = Some (VStr station_id)))
    (concat (sink st)).

(** A configuration with the single station 00091. *)
Definition roster_91 : stations_config := StationsList [ItemStr "00091"].

(** A multi-annual means file with a row of station 00091 and a row of
    station 00103. *)
Definition means_file : string :=
  "Stations_id;Bezugszeitraum;Datenquelle;Jan.;Feb.;Maerz;Apr.;Mai;Jun.;Jul.;Aug.;Sept.;Okt.;Nov.;Dez.;Jahr;
00091;1961-1990;DWD;42,5;2,0;3,0;4,0;5,0;6,0;7,0;8,0;9,0;10,0;11,0;12,0;78,0;
00103;1961-1990;DWD;1,5;2,0;3,0;4,0;5,0;6,0;7,0;8,0;9,0;10,0;11,0;12,0;78,0;
".

(** The same with a row in between whose reference period has no integer
    start year. *)
Definition means_file_bad_period : string :=
  "Stations_id;Bezugszeitraum;Datenquelle;Jan.;Feb.;Maerz;Apr.;Mai;Jun.;Jul.;Aug.;Sept.;Okt.;Nov.;Dez.;Jahr;
00091;1961-1990;DWD;42,5;2,0;3,0;4,0;5,0;6,0;7,0;8,0;9,0;10,0;11,0;12,0;78,0;
00091;abcd-1990;DWD;42,5;2,0;3,0;4,0;5,0;6,0;7,0;8,0;9,0;10,0;11,0;12,0;78,0;
00103;1961-1990;DWD;1,5;2,0;3,0;4,0;5,0;6,0;7,0;8,0;9,0;10,0;11,0;12,0;78,0;
".

(** A recent archive of station 00091 with one precipitation row. *)
Definition precip_archive : payload :=
  mkPayload EmptyString
    (Some [("produkt_zehn_min_rr_00091.txt",
            "STATIONS_ID;MESS_DATUM;QN;RWS_DAU_10;RWS_10;RWS_IND_10;eor
         91;202001010000;    3;  10;   0.50;   1;eor
")])
    [].

(** Every multi-annual means file is [means_file]; no archive is there. *)
Definition net_means : remote := fun url =>
  if Str.startswith url MULTI_ANNUAL_MEANS_URL
  then Body (mkPayload means_file None [])
  else BadStatus.

(** Every multi-annual means file is [means_file_bad_period]. *)
Definition net_bad_period : remote := fun url =>
  if Str.startswith url MULTI_ANNUAL_MEANS_URL
  then Body (mkPayload means_file_bad_period None [])
  else BadStatus.

(** No multi-annual means file can be fetched; the recent precipitation
    archive of station 00091 is there. *)
Definition net_no_means : remote := fun url =>
  if bool_decide
       (url = RECENT_URLS precipitation
              +:+ recent_or_now_name precipitation recent "00091")
  then Body precip_archive
  else BadStatus.

(** A temperature row whose humidity is the sentinel. *)
Definition temp_row_no_humidity : list string :=
  ["         91"; "202001010000"; "    3"; "  -999"; "   5.5"; "  -999";
   "  -999"; "   1.2"; "eor"].

(** The columns of a row of station 00091 for 1961-1990 with 42,5 in
    January, and the record decoded from them. *)
Definition means_parts : list string :=
  Str.strip <$> Str.split ";"
    "00091;1961-1990;DWD;42,5;2,0;3,0;4,0;5,0;6,0;7,0;8,0;9,0;10,0;11,0;12,0;78,0;".

(** The record [parse_multi_annual_means] decodes from [means_parts]. *)
Definition means_row : entry :=
  match multi_annual_record means_parts with
  | Ok r => r
  | Raise _ => ∅
  end.

(** The record the temperature decoder returns for a row with temperature
    5.5 and no humidity. *)
Definition temp_record_no_humidity : entry :=
  list_to_map
    [("station_id", VStr "91"); ("time", VTime (Datetime.mk 2020 1 1 0 0));
     ("temperature_10min", VFloat (Ffin false 11 (-1)));
     ("humidity_10min", VNone)].

(** A heap with one temperature record, and a list that holds it twice. *)
Definition one_record_heap : heap :=
  [list_to_map
     [("station_id", VStr "91"); ("time", VTime (Datetime.mk 2020 1 1 0 0));
      ("temperature_10min", VFloat (Ffin false 53 (-1)));
      ("humidity_10min", VNone)]].

(** A temperature file: the header, the row [temp_row_no_humidity] and a
    row without any value. *)
Definition temp_file : string :=
  "STATIONS_ID;MESS_DATUM;  QN;PP_10;TT_10;TM5_10;RF_10;TD_10;eor
         91;202001010000;    3;  -999;   5.5;  -999;  -999;   1.2;eor
         91;202001010010;    3;  -999;  -999;  -999;  -999;   1.2;eor
".

(** A precipitation file: the header, a row with 1.5 and a row without a
    value. *)
Definition precip_file : string :=
  "STATIONS_ID;MESS_DATUM;  QN;RWS_DAU_10;RWS_10;RWS_IND_10;eor
         91;202001010000;    3;   0;   1.5;   0;eor
         91;202001010010;    3;   0;  -999;   0;eor
".


(** ** What one line contributes to a decoder's result *)

(** The records one row of a temperature file adds to the output. *)
Definition temp_row_records (row : list string) : list entry :=
  if skipped_row row then []
  else match temp_record row with
       | Ok r => option_list r
       | Raise _ => []
       end.

(** The records one row of a precipitation file adds to the output, and the
    warnings it adds to the log. *)
Definition precip_row_records (row : list string) : list entry :=
  if skipped_row row then []
  else match precip_record row with
       | Ok r => option_list r
       | Raise _ => []
       end.

Definition precip_row_warnings (row : list string) : list logrec :=
  if skipped_row row then []
  else match precip_record row with
       | Ok _ => []
       | Raise _ =>
           [(WARNING, "Skipping row in temperature data: %s; Error: %s")]
       end.

(** The header and blank-line test of the multi-annual decoder, on the
    stripped line. *)
Definition skipped_line (line : string) : bool :=
  negb (Str.nonempty line) || Str.startswith line "Stations_id".

(** The record one line of a multi-annual means file adds to the output, and
    the warning it adds to the log. *)
Definition means_line_records (line0 : string) : list entry :=
  let line := Str.strip line0 in
  if skipped_line line then []
  else match multi_annual_record (Str.strip <$> Str.split ";" line) with
       | Ok r => [r]
       | Raise _ => []
       end.

Definition means_line_warnings (line0 : string) : list logrec :=
  let line := Str.strip line0 in
  if skipped_line line then []
  else match multi_annual_record (Str.strip <$> Str.split ";" line) with
       | Ok _ => []
       | Raise _ => [(WARNING, "Skipping malformed line: %s; Error: %s")]
       end.

(** The columns of a row whose reference period starts with year 0, and the
    record decoded from them. *)
Definition means_parts_year_0 : list string :=
  Str.strip <$> Str.split ";"
    "00091;0-1990;DWD;42,5;2,0;3,0;4,0;5,0;6,0;7,0;8,0;9,0;10,0;11,0;12,0;78,0;".

Definition means_row_year_0 : entry :=
  match multi_annual_record means_parts_year_0 with
  | Ok r => r
  | Raise _ => ∅
  end.

(** Every multi-annual file is the row of [means_parts_year_0]. *)
Definition net_year_0 : remote := fun _ =>
  Body (mkPayload
          "00091;0-1990;DWD;42,5;2,0;3,0;4,0;5,0;6,0;7,0;8,0;9,0;10,0;11,0;12,0;78,0;"
          None []).

(** Every URL answers with a body that is no zip archive. *)
Definition net_not_zip : remote := fun _ =>
  Body (mkPayload "not an archive" None []).

(** Every URL answers with an archive whose only member is no text file. *)
Definition net_no_txt : remote := fun _ =>
  Body (mkPayload EmptyString (Some [("readme.pdf", "1;2;3")]) []).

(** No URL answers. *)
Definition net_down : remote := fun _ => NoConnection.




(** ** String lemmas *)

Lemma str_app_cons (a : ascii) (p q : string) :
  String a p +:+ q = String a (p +:+ q).
Proof. reflexivity. Qed.

Lemma str_app_nil_l (q : string) : EmptyString +:+ q = q.
Proof. reflexivity. Qed.

Lemma startswith_app_l (s p q : string) :
  Str.startswith s (p +:+ q) = true → Str.startswith s p = true.
Proof.
  revert s. induction p as [|a p IH]; intros s H; [by destruct s|].
  rewrite str_app_cons in H. destruct s as [|b s]; simpl in *; [done|].
  apply andb_true_iff in H as [-> H]. simpl. by apply IH.
Qed.

Lemma startswith_spec (s p : string) :
  Str.startswith s p = true ↔ ∃ r, s = p +:+ r.
Proof.
  revert s. induction p as [|a p IH]; intros s; simpl.
  - split; [by exists s|by destruct s].
  - destruct s as [|b s].
    + split; [done|]. intros [r Hr]. by rewrite str_app_cons in Hr.
    + simpl. rewrite andb_true_iff, Ascii.eqb_eq, IH. split.
      * intros [-> [r ->]]. by exists r.
      * intros [r Hr]. rewrite str_app_cons in Hr. injection Hr as -> ->. eauto.
Qed.

Lemma startswith_nonempty (s p : string) :
  Str.nonempty p = true → Str.startswith s p = true → Str.nonempty s = true.
Proof. by destruct p, s. Qed.

Lemma length_zeros (n : nat) : String.length (Str.zeros n) = n.
Proof. induction n; simpl; congruence. Qed.

Lemma str_length_app (s t : string) :
  String.length (s +:+ t) = (String.length s + String.length t)%nat.
Proof. induction s; [done|]. rewrite str_app_cons. simpl. congruence. Qed.

(** [zfill] pads to the width, and leaves long strings alone. *)
Lemma length_zfill (w : nat) (s : string) :
  String.length (Str.zfill w s) = Nat.max w (String.length s).
Proof.
  unfold Str.zfill. destruct (Nat.leb_spec w (String.length s)); [lia|].
  destruct s as [|c s]; [rewrite length_zeros; simpl; lia|].
  destruct (_ || _); simpl in *; rewrite ?str_length_app, ?length_zeros; simpl; lia.
Qed.

(** The lines [splitlines] returns hold no line boundary, so none of the
    carriage returns or line feeds the csv reader would act on. *)
Lemma splitlines_no_linebreak (s : string) :
  Forall (fun l => no_linebreak l = true) (Str.splitlines s).
Proof.
  unfold Str.splitlines. generalize false.
  induction s as [|c s IH]; intros b; simpl; [constructor|].
  destruct (b && Ascii.eqb c "010"); [apply IH|].
  destruct (Str.is_linebreak c) eqn:Hc; [constructor; [done|apply IH]|].
  specialize (IH false).
  destruct (Str.splitlines_go false s) as [|l ls]; constructor; simpl;
    rewrite ?Hc; try done.
  - by inversion IH.
  - by inversion IH.
Qed.


Local Arguments Ascii.eqb : simpl never.


(** ** Source selection *)

Lemma list_dwd_files_ok (net : remote) (base_url prefix suffix : string)
    (page : payload) (st : state) :
  net base_url = Body page →
  list_dwd_files net base_url prefix suffix st
  = (Ok (omap (matching_href prefix suffix) (hrefs page)), st).
Proof. intros H. unfold list_dwd_files, download_file, bind. by rewrite H. Qed.

Lemma elem_of_matching_hrefs (prefix suffix fn : string)
    (links : list (option string)) :
  fn ∈ omap (matching_href prefix suffix) links
  ↔ Some fn ∈ links ∧ Str.nonempty fn = true
    ∧ Str.startswith fn prefix = true ∧ Str.endswith fn suffix = true.
Proof.
  rewrite list_elem_of_omap. split.
  - intros [[h|] [Hin Hm]]; simpl in Hm; [|done].
    destruct (Str.nonempty h) eqn:?, (Str.startswith h prefix) eqn:?,
      (Str.endswith h suffix) eqn:?; simplify_eq/=. done.
  - intros (Hin & H1 & H2 & H3). exists (Some fn). split; [done|].
    simpl. by rewrite H1, H2, H3.
Qed.

Lemma elem_of_station_files (prefix fn station_id : string)
    (all_filenames : list string) :
  fn ∈ station_files prefix all_filenames station_id
  ↔ fn ∈ all_filenames
    ∧ Str.startswith fn (prefix +:+ Str.zfill 5 station_id +:+ "_") = true.
Proof. unfold station_files. by rewrite !list_elem_of_In, filter_In. Qed.

(** Loops over lists that are put together from lists. *)
Lemma for_each_ext {A} (f g : A → M unit) (xs : list A) (st : state) :
  (∀ x st0, f x st0 = g x st0) → for_each xs f st = for_each xs g st.
Proof.
  intros H. unfold for_each. revert st.
  induction xs as [|x xs IH]; intros st; simpl; [done|].
  unfold bind. rewrite H. by destruct (g x st) as [[[]|e] st'].
Qed.

Lemma for_each_app {A} (f : A → M unit) (xs ys : list A) (st : state) :
  for_each (xs ++ ys) f st = (for_each xs f ;; for_each ys f)%M st.
Proof.
  unfold for_each. revert st.
  induction xs as [|x xs IH]; intros st; simpl; [done|].
  unfold bind. destruct (f x st) as [[[]|e] st']; [|done].
  rewrite IH. done.
Qed.

Lemma for_each_fmap {A B} (g : A → B) (f : B → M unit) (xs : list A)
    (st : state) :
  for_each (g <$> xs) f st = for_each xs (fun x => f (g x)) st.
Proof.
  unfold for_each. revert st.
  induction xs as [|x xs IH]; intros st; simpl; [done|].
  unfold bind. by destruct (f (g x) st) as [[[]|e] st'].
Qed.

Lemma for_each_nested {A B} (g : A → list B) (f : B → M unit) (xs : list A)
    (st : state) :
  for_each (xs ≫= g) f st = for_each xs (fun x => for_each (g x) f) st.
Proof.
  revert st. induction xs as [|x xs IH]; intros st; [done|].
  change ((x :: xs) ≫= g) with (g x ++ (xs ≫= g)).
  rewrite for_each_app. unfold for_each at 3. simpl. unfold bind.
  destruct (for_each (g x) f st) as [[[]|e] st']; [|done]. apply IH.
Qed.

Lemma elem_of_historical_plan (prefix : string) (all_filenames : list string)
    (station_ids : list string) (station_id fn : string) :
  (station_id, fn) ∈ historical_plan prefix all_filenames station_ids
  ↔ station_id ∈ station_ids
    ∧ fn ∈ station_files prefix all_filenames station_id.
Proof.
  unfold historical_plan. rewrite list_elem_of_bind. split.
  - intros (y & Hin & Hy). apply list_elem_of_fmap in Hin as (z & [= -> ->] & Hz).
    done.
  - intros [Hs Hf]. exists station_id. split; [|done].
    apply list_elem_of_fmap. by exists fn.
Qed.

(** C6: in historical mode the archives fetched are, station by station in
    roster order, the listed filenames selected for the station; a listed
    filename is selected for a station exactly when it starts with the type
    prefix ([10minutenwerte_nieder_] for precipitation, [10minutenwerte_TU_]
    for temperature), the station id filled with zeros to five characters and
    an underscore, and ends with [_hist.zip]. *)
Theorem historical_mode_selection (net : remote) (station_ids : list string)
    (dt : data_type) (station_map : gmap string string) (page : payload)
    (st : state) :
  net (HISTORICAL_URLS dt) = Body page →
  let prefix :=
    match dt with
    | precipitation => "10minutenwerte_nieder_"
    | temperature => "10minutenwerte_TU_"
    end in
  let listed := omap (matching_href prefix "_hist.zip") (hrefs page) in
  fetch_historical_10min_data net station_ids dt station_map st
  = for_each (historical_plan prefix listed station_ids)
      (fun selected =>
         fetch_and_write_zip net (HISTORICAL_URLS dt +:+ selected.2) dt
           station_map) st
  ∧ ∀ station_id fn,
      (station_id, fn) ∈ historical_plan prefix listed station_ids
      ↔ station_id ∈ station_ids
        ∧ Some fn ∈ hrefs page
        ∧ Str.startswith fn (prefix +:+ Str.zfill 5 station_id +:+ "_") = true
        ∧ Str.endswith fn "_hist.zip" = true.
Proof.
  intros Hnet prefix listed.
  assert (type_prefix dt = prefix) as Hprefix by by destruct dt.
  split.
  - unfold fetch_historical_10min_data. unfold bind at 1.
    rewrite (list_dwd_files_ok _ _ _ _ page) by done.
    rewrite Hprefix. fold listed. unfold historical_plan.
    rewrite for_each_nested. apply for_each_ext. intros station_id st0.
    by rewrite for_each_fmap.
  - intros station_id fn.
    rewrite elem_of_historical_plan, elem_of_station_files.
    unfold listed. rewrite elem_of_matching_hrefs. split.
    + intros (? & (? & ? & ? & ?) & ?). done.
    + intros (Hid & Hin & Hp & Hs).
      pose proof (startswith_app_l _ _ _ Hp) as Hp'.
      repeat split; try done.
      eapply startswith_nonempty; [|exact Hp']. by destruct dt.
Qed.

Lemma historical_mode_selection_witness :
  net_listing (HISTORICAL_URLS precipitation) = Body example_listing
  ∧ historical_plan "10minutenwerte_nieder_"
      (omap (matching_href "10minutenwerte_nieder_" "_hist.zip")
         (hrefs example_listing)) ["91"]
    = [("91", "10minutenwerte_nieder_00091_19950101_20201231_hist.zip")]
  ∧ ("91", "10minutenwerte_nieder_00091_19950101_20201231_hist.zip")
      ∈ historical_plan "10minutenwerte_nieder_"
          (omap (matching_href "10minutenwerte_nieder_" "_hist.zip")
             (hrefs example_listing)) ["91"]
  ∧ fetch_historical_10min_data net_listing ["91"] precipitation ∅ st0
    = for_each
        [("91", "10minutenwerte_nieder_00091_19950101_20201231_hist.zip")]
        (fun selected =>
           fetch_and_write_zip net_listing
             (HISTORICAL_URLS precipitation +:+ selected.2) precipitation ∅)
        st0.
Proof.
  destruct (historical_mode_selection net_listing ["91"] precipitation ∅
              example_listing st0 eq_refl) as [Hrun Hsel].
  split; [reflexivity|]. split; [reflexivity|]. split.
  - apply Hsel. split; [left|]. split; [left|]. split; reflexivity.
  - exact Hrun.
Defined.

Example historical_selection_91 :
  station_files (type_prefix precipitation)
    (omap (matching_href (type_prefix precipitation) "_hist.zip")
       (hrefs example_listing)) "91"
  = ["10minutenwerte_nieder_00091_19950101_20201231_hist.zip"]
  ∧ station_files (type_prefix temperature)
      (omap (matching_href (type_prefix temperature) "_hist.zip")
         (hrefs example_listing)) "91"
    = ["10minutenwerte_TU_00091_..._hist.zip"].
Proof. split; reflexivity. Qed.



(** ** Point builder *)

Lemma map_fold_field (p : Point) (e : entry) :
  p_fields (map_fold Pt.field p e) = e ∪ p_fields p
  ∧ p_name (map_fold Pt.field p e) = p_name p
  ∧ p_tags (map_fold Pt.field p e) = p_tags p
  ∧ p_time (map_fold Pt.field p e) = p_time p.
Proof.
  apply (map_fold_weak_ind
           (fun r (m : entry) =>
              p_fields r = m ∪ p_fields p ∧ p_name r = p_name p
              ∧ p_tags r = p_tags p ∧ p_time r = p_time p)).
  - by rewrite (left_id_L ∅ (∪)).
  - intros i x m r Hi (Hf & Hn & Ht & Hti). simpl.
    rewrite Hf. by rewrite insert_union_l.
Qed.

(** What the loop body of the builder does to one record. *)
Lemma build_point_spec (measurement : string)
    (station_map : gmap string string) (e : entry) :
  let sid := default VNone (e !! "station_id") in
  let ts := default VNone (e !! "time") in
  let p := (build_point measurement station_map e).1 in
  (build_point measurement station_map e).2
  = delete "time" (delete "station_id" e)
  ∧ p_fields p = delete "time" (delete "station_id" e)
  ∧ p_name p = measurement
  ∧ p_time p = (if truthy ts then Some ts else None)
  ∧ p_tags p
    = (if truthy sid then
         match station_name station_map sid with
         | Some name => <["station_name" := VStr name]> {["station_id" := sid]}
         | None => {["station_id" := sid]}
         end
       else ∅).
Proof.
  intros sid ts. unfold build_point, pop. fold sid.
  rewrite lookup_delete_ne by done. fold ts. simpl.
  match goal with |- context [map_fold Pt.field ?q ?m] =>
    destruct (map_fold_field q m) as (Hf & Hn & Ht & Hti) end.
  rewrite Hf, Hn, Ht, Hti.
  destruct (truthy sid), (truthy ts), (station_name station_map sid);
    simpl; rewrite ?(right_id_L ∅ (∪)); done.
Qed.




Local Arguments build_point : simpl never.

Lemma build_point_strips (measurement : string)
    (station_map : gmap string string) (e : entry) :
  stripped (build_point measurement station_map e).2.
Proof.
  destruct (build_point_spec measurement station_map e) as (-> & _).
  split; [rewrite lookup_delete_ne by done|]; apply lookup_delete_eq.
Qed.

Lemma build_point_stripped (measurement : string)
    (station_map : gmap string string) (e : entry) :
  stripped e →
  (build_point measurement station_map e).2 = e
  ∧ p_tags (build_point measurement station_map e).1 = ∅
  ∧ p_time (build_point measurement station_map e).1 = None.
Proof.
  intros [Hs Ht].
  destruct (build_point_spec measurement station_map e)
    as (-> & _ & _ & -> & ->).
  rewrite Hs, Ht. simpl. split; [|done].
  rewrite (delete_id (delete _ _)); rewrite ?delete_id; try done.
Qed.

Lemma build_points_cons (measurement : string)
    (station_map : gmap string string) (h : heap) (l : nat) (ls : list nat) :
  build_points measurement station_map h (l :: ls)
  = match h !! l with
    | Some e =>
        let pe := build_point measurement station_map e in
        let r := build_points measurement station_map (<[l := pe.2]> h) ls in
        (pe.1 :: r.1, r.2)
    | None => build_points measurement station_map h ls
    end.
Proof.
  cbn [build_points]. destruct (h !! l) as [e|]; [|done].
  destruct (build_point measurement station_map e) as [p e'].
  cbn [fst snd].
  by destruct (build_points measurement station_map (<[l:=e']> h) ls).
Qed.

Lemma build_points_heap (measurement : string)
    (station_map : gmap string string) (ls : list nat) :
  ∀ (h : heap) (l : nat) (e : entry),
    h !! l = Some e →
    ∃ e', (build_points measurement station_map h ls).2 !! l = Some e'
          ∧ (stripped e ∨ l ∈ ls → stripped e').
Proof.
  induction ls as [|l0 ls IH]; intros h l e Hl.
  - exists e. split; [done|]. intros [?|Hin]; [done|].
    by apply elem_of_nil in Hin.
  - rewrite build_points_cons. destruct (h !! l0) as [e0|] eqn:Hl0.
    + pose proof (build_point_strips measurement station_map e0) as Hs.
      cbn [fst snd].
      set (e0' := (build_point measurement station_map e0).2) in *.
      destruct (decide (l = l0)) as [->|Hne].
      * destruct (IH (<[l0:=e0']> h) l0 e0') as (e' & He' & Hstr).
        { apply list_lookup_insert_eq. by eapply lookup_lt_Some. }
        exists e'. split; [done|]. intros _. apply Hstr. by left.
      * destruct (IH (<[l0:=e0']> h) l e) as (e' & He' & Hstr).
        { by rewrite list_lookup_insert_ne. }
        exists e'. split; [done|].
        intros [?|Hin]; apply Hstr; [by left|right].
        apply elem_of_cons in Hin as [?|?]; done.
    + destruct (IH h l e Hl) as (e' & He' & Hstr). exists e'. split; [done|].
      intros [?|Hin]; apply Hstr; [by left|right].
      apply elem_of_cons in Hin as [->|?]; [congruence|done].
Qed.

Lemma build_points_stripped (measurement : string)
    (station_map : gmap string string) (ls : list nat) (h : heap) :
  (∀ l, l ∈ ls → ∃ e, h !! l = Some e ∧ stripped e) →
  (build_points measurement station_map h ls).2 = h
  ∧ length (build_points measurement station_map h ls).1 = length ls
  ∧ Forall (fun p => p_tags p = ∅ ∧ p_time p = None)
      (build_points measurement station_map h ls).1.
Proof.
  induction ls as [|l0 ls IH]; intros Hall; [done|].
  rewrite build_points_cons.
  destruct (Hall l0) as (e & He & Hs); [by left|]. rewrite He.
  destruct (build_point_stripped measurement station_map e Hs)
    as (He' & Htag & Htime).
  cbn [fst snd]. rewrite He', (list_insert_id _ _ _ He).
  destruct IH as (Hh & Hlen & Hfa).
  { intros l Hl. apply Hall. by right. }
  repeat split; [done|by rewrite length_cons, Hlen|]. by constructor.
Qed.

(** On a fresh list, where every record is referred to once and in order,
    the builder is a map over the records. *)
Lemma build_points_fresh_go (measurement : string)
    (station_map : gmap string string) (records : list entry) :
  ∀ pre : list entry,
    build_points measurement station_map (pre ++ records)
      (seq (length pre) (length records))
    = ((fun e => (build_point measurement station_map e).1) <$> records,
       pre ++ ((fun e => (build_point measurement station_map e).2)
                <$> records)).
Proof.
  induction records as [|e records IH]; intros pre; [done|].
  cbn [length seq]. rewrite build_points_cons.
  rewrite list_lookup_middle by done. cbn [fst snd].
  replace (<[length pre:=(build_point measurement station_map e).2]>
             (pre ++ e :: records))
    with ((pre ++ [(build_point measurement station_map e).2]) ++ records).
  - replace (S (length pre))
      with (length (pre ++ [(build_point measurement station_map e).2]))
      by (rewrite length_app; simpl; lia).
    rewrite IH. by rewrite <- app_assoc.
  - rewrite <- app_assoc. simpl.
    rewrite insert_app_r_alt, Nat.sub_diag by lia. done.
Qed.

Lemma build_points_fresh (measurement : string)
    (station_map : gmap string string) (records : list entry) :
  (build_points measurement station_map records (seq 0 (length records))).1
  = (fun e => (build_point measurement station_map e).1) <$> records.
Proof.
  pose proof (build_points_fresh_go measurement station_map records [])
    as H.
  simpl in H. by rewrite H.
Qed.

Lemma write_points_to_influx_spec (h : heap) (data_list : list nat)
    (measurement : string) (station_map : gmap string string) (st : state) :
  let r := build_points measurement station_map h data_list in
  write_points_to_influx h data_list measurement station_map st
  = (Ok r.2,
     mkState (match r.1 with [] => sink st | _ => sink st ++ [r.1] end)
       (log st)).
Proof.
  unfold write_points_to_influx.
  destruct (build_points measurement station_map h data_list) as [[|p ps] h'];
    simpl; [by destruct st|done].
Qed.

(** C9: the builder removes [station_id] and [time] from every record of
    the list it is given; called again on the same list, whose records are
    left as they are now, it writes as many points as before, none with a
    tag or a time. *)
Theorem builder_mutates_records (h : heap) (data_list : list nat)
    (measurement : string) (station_map : gmap string string) (st : state) :
  Forall (fun l => is_Some (h !! l)) data_list →
  ∃ h1 st1,
    write_points_to_influx h data_list measurement station_map st
    = (Ok h1, st1)
    ∧ (∀ l, l ∈ data_list →
         ∃ e, h1 !! l = Some e
              ∧ e !! "station_id" = None ∧ e !! "time" = None)
    ∧ ∀ measurement2 station_map2,
        ∃ points2,
          write_points_to_influx h1 data_list measurement2 station_map2 st1
          = (Ok h1,
             mkState
               (match points2 with [] => sink st1 | _ => sink st1 ++ [points2] end)
               (log st1))
          ∧ length points2 = length data_list
          ∧ Forall (fun p => p_tags p = ∅ ∧ p_time p = None) points2.
Proof.
  intros Hlive. rewrite write_points_to_influx_spec. simpl.
  eexists _, _. split; [reflexivity|].
  assert (∀ l, l ∈ data_list →
            ∃ e, (build_points measurement station_map h data_list).2 !! l
                 = Some e ∧ stripped e) as Hstr.
  { intros l Hl. rewrite Forall_forall in Hlive.
    destruct (Hlive l Hl) as [e He].
    destruct (build_points_heap measurement station_map data_list h l e He)
      as (e' & He' & Hs).
    exists e'. split; [done|]. apply Hs. by right. }
  split; [exact Hstr|].
  intros measurement2 station_map2.
  destruct (build_points_stripped measurement2 station_map2 data_list _ Hstr)
    as (Hh & Hlen & Hfa).
  eexists. rewrite write_points_to_influx_spec. simpl. rewrite Hh.
  split; [reflexivity|]. done.
Qed.

(** ** Ten-minute temperature decoder *)

Lemma sentinel_float_missing : sentinel_float "-999" = Ok VNone.
Proof. reflexivity. Qed.

Lemma sentinel_float_value (tok : string) :
  tok ≠ "-999" → token_ok tok = true →
  ∃ f, float tok = Ok f ∧ sentinel_float tok = Ok (VFloat f).
Proof.
  intros Hne Hok. unfold token_ok in Hok.
  rewrite bool_decide_eq_false_2 in Hok by done. simpl in Hok.
  apply bool_decide_eq_true in Hok as [f Hf]. exists f.
  unfold sentinel_float, float. rewrite bool_decide_eq_true_2 by done.
  by rewrite Hf.
Qed.

Lemma parse_10min_temp_step_ok (out : list entry) (row : list string)
    (r : option entry) (st : state) :
  skipped_row row = false → temp_record row = Ok r →
  parse_10min_temp_step out row st = (Ok (out ++ option_list r), st).
Proof.
  intros Hs Hr. unfold parse_10min_temp_step, try_m, bind, lift, ret.
  by rewrite Hs, Hr.
Qed.

(** One turn of the loop on a well-formed row: nothing is appended exactly
    when both tokens are the sentinel; with one of them, one record with the
    other value. *)
Lemma parse_10min_temp_step_well_formed (out : list entry)
    (row : list string) (c4 c6 : string) (st : state) :
  well_formed_temp_row row = true →
  row !! 4%nat = Some c4 → row !! 6%nat = Some c6 →
  let tt_10 := Str.strip c4 in
  let rf_10 := Str.strip c6 in
  ∃ recs,
    parse_10min_temp_step out row st = (Ok (out ++ recs), st)
    ∧ (length recs ≤ 1)%nat
    ∧ (recs = [] ↔ tt_10 = "-999" ∧ rf_10 = "-999")
    ∧ (tt_10 = "-999" → rf_10 ≠ "-999" →
       ∃ r v, recs = [r] ∧ float rf_10 = Ok v
              ∧ r !! "temperature_10min" = Some VNone
              ∧ r !! "humidity_10min" = Some (VFloat v))
    ∧ (tt_10 ≠ "-999" → rf_10 = "-999" →
       ∃ r v, recs = [r] ∧ float tt_10 = Ok v
              ∧ r !! "temperature_10min" = Some (VFloat v)
              ∧ r !! "humidity_10min" = Some VNone).
Proof.
  intros Hwf H4 H6 tt_10 rf_10. unfold well_formed_temp_row in Hwf.
  rewrite H4, H6 in Hwf.
  destruct (skipped_row row) eqn:Hskip; [done|].
  destruct (row !! 1%nat) as [c1|] eqn:H1; [|done].
  destruct (Datetime.strptime (Str.strip c1)) as [dt|] eqn:Hdt; [|done].
  simpl in Hwf. apply andb_true_iff in Hwf as [Ht Hr].
  fold tt_10 in Ht. fold rf_10 in Hr.
  destruct row as [|c0 row']; [done|].
  assert (∀ tv rv,
            sentinel_float tt_10 = Ok tv → sentinel_float rf_10 = Ok rv →
            temp_record (c0 :: row')
            = Ok match tv, rv with
                 | VNone, VNone => None
                 | _, _ =>
                     Some (list_to_map
                             [("station_id", VStr (Str.strip c0));
                              ("time", VTime dt);
                              ("temperature_10min", tv);
                              ("humidity_10min", rv)])
                 end) as Hrec.
  { intros tv rv Htv Hrv. unfold temp_record, index.
    rewrite H1, H4, H6. simpl. rewrite Hdt. simpl.
    fold tt_10 rf_10. rewrite Htv, Hrv. simpl. by destruct tv, rv. }
  destruct (decide (tt_10 = "-999")) as [Et|Et],
    (decide (rf_10 = "-999")) as [Er|Er].
  - exists []. rewrite (parse_10min_temp_step_ok _ _ None) by
      (try done; apply (Hrec VNone VNone); by rewrite ?Et, ?Er).
    repeat split; simpl; try done; lia.
  - destruct (sentinel_float_value rf_10 Er Hr) as (v & Hv & Hsv).
    eexists [_].
    rewrite (parse_10min_temp_step_ok _ _ (Some _)) by
      (try done; apply (Hrec VNone (VFloat v)); by rewrite ?Et).
    repeat split; simpl; try done; try lia; try tauto.
    intros _ _. eexists _, v. done.
  - destruct (sentinel_float_value tt_10 Et Ht) as (v & Hv & Hsv).
    eexists [_].
    rewrite (parse_10min_temp_step_ok _ _ (Some _)) by
      (try done; apply (Hrec (VFloat v) VNone); by rewrite ?Er).
    repeat split; simpl; try done; try lia; try tauto.
    intros _ _. eexists _, v. done.
  - destruct (sentinel_float_value tt_10 Et Ht) as (v & Hv & Hsv).
    destruct (sentinel_float_value rf_10 Er Hr) as (w & Hw & Hsw).
    eexists [_].
    rewrite (parse_10min_temp_step_ok _ _ (Some _)) by
      (try done; apply (Hrec (VFloat v) (VFloat w)); done).
    repeat split; simpl; try done; try lia; tauto.
Qed.

(** ** Multi-annual means *)

Lemma res_bind_Ok {A B} (r : res A) (k : A → res B) (b : B) :
  res_bind r k = Ok b → ∃ a, r = Ok a ∧ k a = Ok b.
Proof. destruct r as [a|e]; simpl; [eauto|done]. Qed.

Lemma res_bind_Raise {A B} (r : res A) (k : A → res B) (e : exn) :
  res_bind r k = Raise e → r = Raise e ∨ ∃ a, r = Ok a ∧ k a = Raise e.
Proof. destruct r as [a|e']; simpl; [eauto|]. intros [= ->]. by left. Qed.

Ltac res_inv H :=
  repeat (let a := fresh "x" in let E := fresh "E" in
          apply res_bind_Ok in H as (a & E & H)).

Lemma index_raises (parts : list string) (i : nat) (e : exn) :
  index parts i = Raise e → e = IndexError.
Proof. unfold index. destruct (parts !! i); congruence. Qed.

Lemma float_raises (s : string) (e : exn) : float s = Raise e → e = ValueError.
Proof. unfold float. destruct (Num.float_of_str s); congruence. Qed.

Lemma month_value_raises (parts : list string) (i : nat) (e : exn) :
  month_value parts i = Raise e → e = IndexError ∨ e = ValueError.
Proof.
  unfold month_value. intros [H|(a & _ & H)]%res_bind_Raise.
  - left. by eapply index_raises.
  - right. by eapply float_raises.
Qed.

(** The [try] body of the decoder raises nothing but what its handler
    catches. *)
Lemma multi_annual_record_raises (parts : list string) (e : exn) :
  multi_annual_record parts = Raise e → e = IndexError ∨ e = ValueError.
Proof.
  unfold multi_annual_record. intros H.
  repeat (apply res_bind_Raise in H as [H|(? & _ & H)];
          [first [ by left; eapply index_raises
                 | by eapply month_value_raises
                 | idtac ] |]); try done.
  destruct (Str.nonempty _); [|done].
  apply res_bind_Raise in H as [H|(? & _ & H)]; [|done].
  right. by eapply float_raises.
Qed.

(** What a decoded record holds, in terms of the columns of its line. *)
Lemma multi_annual_record_inv (parts : list string) (r : entry) :
  multi_annual_record parts = Ok r →
  ∃ sid ref,
    parts !! 0%nat = Some sid ∧ parts !! 1%nat = Some ref
    ∧ r !! "station_id" = Some (VStr sid)
    ∧ r !! "reference_period" = Some (VStr ref)
    ∧ Forall (fun nk : Z * string =>
                ∃ f, month_value parts (Z.to_nat nk.1 + 2) = Ok f
                     ∧ r !! nk.2 = Some (VFloat f)) month_keys.
Proof.
  unfold multi_annual_record. intros H.
  apply res_bind_Ok in H as (sid & Hsid & H).
  apply res_bind_Ok in H as (ref & Href & H).
  res_inv H. injection H as <-.
  unfold index in Hsid, Href.
  destruct (parts !! 0%nat) eqn:H0; [|done].
  destruct (parts !! 1%nat) eqn:H1; [|done].
  injection Hsid as ->. injection Href as ->.
  exists sid, ref. repeat split.
  repeat constructor; (eexists; split; [eassumption|reflexivity]).
Qed.

(** A loop whose every turn returns and keeps an invariant returns and keeps
    it. *)
Lemma foldM_inv {A B} (P : B → state → Prop) (f : B → A → M B) :
  (∀ acc x st, P acc st → ∃ acc' st', f acc x st = (Ok acc', st') ∧ P acc' st') →
  ∀ xs acc st, P acc st →
    ∃ acc' st', foldM f xs acc st = (Ok acc', st') ∧ P acc' st'.
Proof.
  intros Hstep. induction xs as [|x xs IH]; intros acc st HP; simpl.
  - by exists acc, st.
  - unfold bind. destruct (Hstep acc x st HP) as (acc1 & st1 & -> & HP1).
    by apply IH.
Qed.

Lemma parse_multi_annual_means_step_spec (results : list entry)
    (line0 : string) (st : state) :
  ∃ results' st',
    parse_multi_annual_means_step results line0 st = (Ok results', st')
    ∧ sink st' = sink st
    ∧ (results' = results
       ∨ ∃ parts r, multi_annual_record parts = Ok r
                    ∧ results' = results ++ [r]).
Proof.
  unfold parse_multi_annual_means_step.
  destruct (_ || _); [by exists results, st; auto|].
  unfold try_m, bind, lift, ret.
  destruct (multi_annual_record _) as [r|e] eqn:Hr.
  - exists (results ++ [r]), st. split; [done|]. split; [done|]. right. eauto.
  - apply multi_annual_record_raises in Hr as [-> | ->]; simpl;
      eexists _, _; (split; [reflexivity|]); simpl; auto.
Qed.

(** The decoder returns on every text, writes nothing to the sink, and
    every record it returns was decoded from the columns of a line. *)
Lemma parse_multi_annual_means_spec (content : string) (st : state) :
  ∃ rows st',
    parse_multi_annual_means content st = (Ok rows, st')
    ∧ sink st' = sink st
    ∧ Forall (fun r => ∃ parts, multi_annual_record parts = Ok r) rows.
Proof.
  unfold parse_multi_annual_means.
  destruct (foldM_inv
              (fun acc st' =>
                 sink st' = sink st
                 ∧ Forall (fun r => ∃ parts, multi_annual_record parts = Ok r)
                     acc)
              parse_multi_annual_means_step) with
    (xs := Str.splitlines content) (acc := @nil entry) (st := st)
    as (rows & st' & Hrun & Hs & Hall).
  - intros acc x st1 [Hs Hall].
    destruct (parse_multi_annual_means_step_spec acc x st1)
      as (acc' & st' & Hrun & Hs' & Hacc).
    exists acc', st'. split; [done|]. split; [congruence|].
    destruct Hacc as [->|(parts & r & Hr & ->)]; [done|].
    apply Forall_app. split; [done|]. constructor; eauto.
  - done.
  - by exists rows, st'.
Qed.

(** C4 (as the code has it): the decoder of multi-annual means has no
    sentinel.  Every month of every record it returns holds a float, never
    null; a monthly token [-999] is read, after the comma is replaced, as the
    number -999. *)
Theorem multi_annual_months_are_floats (content : string) (st : state) :
  (∃ rows st',
     parse_multi_annual_means content st = (Ok rows, st')
     ∧ Forall (fun r : entry =>
                 Forall (fun nk : Z * string =>
                           ∃ f, r !! nk.2 = Some (VFloat f)) month_keys)
         rows)
  ∧ (∀ parts i, parts !! i = Some "-999" →
       month_value parts i = Ok (Ffin true 999 0)).
Proof.
  split.
  - destruct (parse_multi_annual_means_spec content st)
      as (rows & st' & Hrun & _ & Hall).
    exists rows, st'. split; [done|].
    eapply Forall_impl; [exact Hall|]. intros r [parts Hr]. simpl.
    destruct (multi_annual_record_inv parts r Hr) as (_ & _ & _ & _ & _ & _ & Hm).
    eapply Forall_impl; [exact Hm|]. intros nk (f & _ & Hf). eauto.
  - intros parts i Hi. unfold month_value, index. by rewrite Hi.
Qed.

(** C4, as stated, fails: the January token [-999] of [sentinel_line] is
    decoded to the float -999, not to null. *)
Lemma sentinel_not_resolved_in_multi_annual :
  match (parse_multi_annual_means sentinel_line (mkState [] [])).1 with
  | Ok [r] => r !! "Jan"
  | _ => None
  end = Some (VFloat (Ffin true 999 0)).
Proof. vm_compute. reflexivity. Qed.

Lemma month_values_of_ok (row : entry) (keys : list (Z * string)) :
  Forall (fun nk : Z * string => is_Some (row !! nk.2)) keys →
  month_values_of row keys
  = Ok ((fun nk : Z * string => (nk.1, default VNone (row !! nk.2))) <$> keys).
Proof.
  induction 1 as [|[n k] keys [v Hv] _ IH]; [done|].
  simpl in *. unfold getitem. by rewrite Hv, IH.
Qed.

Lemma make_first_of_month (y m : Z) :
  1 ≤ y ≤ 9999 → 1 ≤ m ≤ 12 →
  Datetime.make y m 1 0 0 = Ok (Datetime.mk y m 1 0 0).
Proof.
  intros Hy Hm. unfold Datetime.make.
  assert ((1 <=? Datetime.days_in_month y m) = true) as Hd.
  { unfold Datetime.days_in_month.
    repeat match goal with |- context [if ?b then _ else _] => destruct b end;
      done. }
  assert ((- 2 ^ 31 <=? y) && (y <? 2 ^ 31) = true) as ->.
  { apply andb_true_iff. split; [apply Z.leb_le|apply Z.ltb_lt]; lia. }
  rewrite Hd. simpl.
  repeat match goal with
         | |- context [?a <=? ?b] =>
             rewrite (proj2 (Z.leb_le a b)) by lia
         end.
  done.
Qed.

Lemma month_points_ok (station_id ref_period : pyval) (y : Z)
    (mvs : list (Z * pyval)) :
  1 ≤ y ≤ 9999 →
  Forall (fun mv : Z * pyval => 1 ≤ mv.1 ≤ 12) mvs →
  ∀ data_points,
    month_points station_id ref_period y mvs data_points
    = Ok (data_points ++ (month_entry station_id ref_period y <$> mvs)).
Proof.
  intros Hy. induction 1 as [|mv mvs Hmv _ IH]; intros data_points; simpl.
  - by rewrite app_nil_r.
  - unfold month_point. rewrite make_first_of_month by done. simpl.
    rewrite IH. by rewrite <- app_assoc.
Qed.

Lemma multi_annual_row_step_ok (station_ids : option (list string))
    (data_points : list entry) (row : entry) (sid ref : pyval) (y : Z)
    (st : state) :
  row !! "station_id" = Some sid →
  row !! "reference_period" = Some ref →
  Forall (fun nk : Z * string => is_Some (row !! nk.2)) month_keys →
  filtered_out station_ids sid = false →
  start_year_of ref = Ok y →
  1 ≤ y ≤ 9999 →
  multi_annual_row_step station_ids data_points row st
  = (Ok (data_points
         ++ ((fun nk : Z * string =>
                month_entry sid ref y (nk.1, default VNone (row !! nk.2)))
             <$> month_keys)), st).
Proof.
  intros Hsid Href Hmonths Hfilter Hyear Hy.
  unfold multi_annual_row_step, bind, lift, try_m, getitem, ret.
  rewrite Hsid, Hfilter, Href, (month_values_of_ok _ _ Hmonths), Hyear.
  rewrite month_points_ok; [by rewrite <- list_fmap_compose|done|].
  apply Forall_fmap. repeat constructor; simpl; lia.
Qed.

Lemma month_entry_point (sid ref v : pyval) (y n : Z) :
  let e := month_entry sid ref y (n, v) in
  e !! "time" = Some (VTime (Datetime.mk y n 1 0 0))
  ∧ e !! "value" = Some v
  ∧ e !! "station_id" = Some sid
  ∧ e !! "reference_period" = Some ref
  ∧ ∀ measurement station_map,
      let p := (build_point measurement station_map e).1 in
      p_time p = Some (VTime (Datetime.mk y n 1 0 0))
      ∧ p_fields p !! "value" = Some v.
Proof.
  intros e. do 4 (split; [reflexivity|]).
  intros measurement station_map p. subst p.
  destruct (build_point_spec measurement station_map e)
    as (_ & Hfields & _ & Htime & _).
  rewrite Hfields, Htime. split; reflexivity.
Qed.

(** C8 (as the code has it): for a decoded record that passes the roster
    filter and whose reference period starts with a calendar year (an
    integer from 1 to 9999 before the first [-]), the synthesizer adds
    exactly twelve records, one per month in order, each with the first day
    of that month of the start year as its time and the month's value; the
    point built from each has that instant and that value. *)
Theorem multi_annual_twelve_points (station_ids : option (list string))
    (data_points : list entry) (parts : list string) (row : entry) (y : Z)
    (st : state) :
  multi_annual_record parts = Ok row →
  filtered_out station_ids (default VNone (row !! "station_id")) = false →
  start_year_of (default VNone (row !! "reference_period")) = Ok y →
  1 ≤ y ≤ 9999 →
  ∃ twelve,
    multi_annual_row_step station_ids data_points row st
    = (Ok (data_points ++ twelve), st)
    ∧ length twelve = 12%nat
    ∧ Forall2
        (fun (nk : Z * string) (e : entry) =>
           e !! "time" = Some (VTime (Datetime.mk y nk.1 1 0 0))
           ∧ e !! "value" = row !! nk.2
           ∧ e !! "station_id" = row !! "station_id"
           ∧ e !! "reference_period" = row !! "reference_period"
           ∧ ∀ measurement station_map,
               let p := (build_point measurement station_map e).1 in
               p_time p = Some (VTime (Datetime.mk y nk.1 1 0 0))
               ∧ p_fields p !! "value" = row !! nk.2)
        month_keys twelve.
Proof.
  intros Hrow Hfilter Hyear Hy.
  destruct (multi_annual_record_inv parts row Hrow)
    as (sid & ref & _ & _ & Hsid & Href & Hm).
  rewrite Hsid in Hfilter. rewrite Href in Hyear. simpl in Hfilter, Hyear.
  eexists. split.
  { apply (multi_annual_row_step_ok _ _ _ (VStr sid) (VStr ref) y);
      try done.
    eapply Forall_impl; [exact Hm|]. intros nk (f & _ & ->). eauto. }
  split; [done|].
  apply Forall2_fmap_r, Forall_Forall2_diag.
  eapply Forall_impl; [exact Hm|]. intros [n k] (f & _ & Hf).
  unfold compose. cbv beta. change (n, k).1 with n. change (n, k).2 with k in *.
  rewrite Hf, Hsid, Href.
  change (default VNone (Some (VFloat f))) with (VFloat f).
  exact (month_entry_point (VStr sid) (VStr ref) (VFloat f) y n).
Qed.

(** ** Fetch failures *)

Lemma download_file_failed (net : remote) (url : string) (st : state) :
  failed (net url) = true →
  ∃ st', download_file net url st = (Raise RequestException, st')
         ∧ sink st' = sink st.
Proof.
  unfold download_file. destruct (net url); [done|..]; intros _.
  - by eexists.
  - by eexists.
Qed.

(** A loop raises as soon as one of its turns does, whatever the state it
    is reached in. *)
Lemma for_each_raises {A} (f : A → M unit) (xs : list A) (x : A) :
  x ∈ xs →
  (∀ st, ∃ e st', f x st = (Raise e, st')) →
  ∀ st, ∃ e st', for_each xs f st = (Raise e, st').
Proof.
  intros Hin Hx. unfold for_each.
  induction xs as [|x0 xs IH]; intros st; [by apply elem_of_nil in Hin|].
  simpl. unfold bind at 1.
  destruct (f x0 st) as [[[]|e] st0] eqn:Hf0; [|by eauto].
  apply elem_of_cons in Hin as [->|Hin]; [|by apply IH].
  destruct (Hx st) as (e & st' & He). congruence.
Qed.

Lemma for_each_cons_ok {A} (f : A → M unit) (x : A) (xs : list A)
    (st st' : state) :
  f x st = (Ok tt, st') → for_each (x :: xs) f st = for_each xs f st'.
Proof. intros H. unfold for_each. simpl. unfold bind at 1. by rewrite H. Qed.

Lemma fetch_and_write_zip_failed (net : remote) (full_url : string)
    (dt : data_type) (station_map : gmap string string) (st : state) :
  failed (net full_url) = true →
  ∃ st', fetch_and_write_zip net full_url dt station_map st = (Ok tt, st')
         ∧ sink st' = sink st
         ∧ (ERROR, "Could not download %s: %s") ∈ log st'.
Proof.
  intros Hf. unfold fetch_and_write_zip, bind, try_m, download_file.
  destruct (net full_url); [done|..]; simpl; eexists; (split; [reflexivity|]);
    simpl; (split; [done|]); set_solver.
Qed.

(** X24.  Of the three places that fetch, only the archive loader has a
    handler.  A failed fetch of a ten-minute zip archive is logged and the
    archive skipped, and the loop over the archives goes on with the
    remaining ones, in recent or now mode and in historical mode alike.  A
    failed fetch of a directory listing or of a multi-annual means file
    leaves the function as the exception. *)
Theorem zip_fetch_failure_skipped (net : remote) (dt : data_type)
    (station_map : gmap string string) (full_url : string) (st : state) :
  failed (net full_url) = true →
  (∃ st',
     fetch_and_write_zip net full_url dt station_map st = (Ok tt, st')
     ∧ sink st' = sink st
     ∧ (ERROR, "Could not download %s: %s") ∈ log st'
     ∧ (∀ period station_id rest,
          full_url
          = match period with recent => RECENT_URLS dt | now => NOW_URLS dt end
            +:+ recent_or_now_name dt period station_id →
          fetch_recent_or_now_10min_data net (station_id :: rest) dt period
            station_map st
          = fetch_recent_or_now_10min_data net rest dt period station_map st')
     ∧ (∀ zipfile_name rest,
          full_url = HISTORICAL_URLS dt +:+ zipfile_name →
          for_each (zipfile_name :: rest)
            (fun z => fetch_and_write_zip net (HISTORICAL_URLS dt +:+ z) dt
                        station_map) st
          = for_each rest
              (fun z => fetch_and_write_zip net (HISTORICAL_URLS dt +:+ z) dt
                          station_map) st'))
  ∧ (full_url = HISTORICAL_URLS dt →
     ∀ station_ids,
       (fetch_historical_10min_data net station_ids dt station_map st).1
       = Raise RequestException)
  ∧ (∀ period station_ids,
       period ∈ PERIOD_STRINGS →
       full_url = MULTI_ANNUAL_TEMPLATES dt (short_period_of period) period →
       ∃ e,
         (fetch_multi_annual_means net dt station_map station_ids st).1
         = Raise e).
Proof.
  intros Hf. split; [|split].
  - destruct (fetch_and_write_zip_failed net full_url dt station_map st Hf)
      as (st' & Hrun & Hsink & Hlog).
    exists st'. repeat split; try done.
    + intros period station_id rest ->. unfold fetch_recent_or_now_10min_data.
      by apply for_each_cons_ok.
    + intros zipfile_name rest ->. by apply for_each_cons_ok.
  - intros -> station_ids.
    destruct (download_file_failed net _ st Hf) as (st' & Hd & _).
    unfold fetch_historical_10min_data, list_dwd_files, bind. by rewrite Hd.
  - intros period station_ids Hin ->.
    destruct (for_each_raises
                (fun period =>
                   (let! content :=
                      download_file net
                        (MULTI_ANNUAL_TEMPLATES dt (short_period_of period)
                           period) in
                    let! rows := parse_multi_annual_means (text content) in
                    let! data_points :=
                      foldM (multi_annual_row_step station_ids) rows [] in
                    write_fresh data_points
                      ("multi_annual_" +:+ data_type_name dt) station_map)%M)
                PERIOD_STRINGS period Hin) with (st := st)
      as (e & st' & He).
    + intros st1. destruct (download_file_failed net _ st1 Hf) as (st2 & Hd & _).
      exists RequestException, st2. unfold bind. by rewrite Hd.
    + exists e. unfold fetch_multi_annual_means. by rewrite He.
Qed.

(** ** Concrete runs *)

(** C1 fails on the code: [main] calls [fetch_multi_annual_means] without the
    roster, so nothing is filtered.  With only station 00091 configured, an
    init run writes the twelve points of station 00103 for each of the eight
    files as well. *)
Theorem init_writes_stations_outside_roster :
  (main net_means init roster_91 st0).1 = Ok tt
  ∧ length (points_of_station "00103" (main net_means init roster_91 st0).2)
    = 96%nat
  ∧ length (points_of_station "00091" (main net_means init roster_91 st0).2)
    = 96%nat.
Proof. vm_compute. done. Qed.

(** With the roster passed, the same function does filter. *)
Example multi_annual_filters_when_given_roster :
  length (points_of_station "00103"
            (fetch_multi_annual_means net_means precipitation ∅
               (Some ["00091"]) st0).2) = 0%nat
  ∧ length (points_of_station "00091"
              (fetch_multi_annual_means net_means precipitation ∅
                 (Some ["00091"]) st0).2) = 48%nat.
Proof. vm_compute. done. Qed.

(** C2 fails on the code: the clause [except ValueError | TypeError] turns the
    [ValueError] of the start year into a [TypeError] that nothing catches.
    The pass over the file ends there: no warning is logged, and the rows
    before and after the bad one are not written. *)
Theorem bad_reference_period_aborts :
  fetch_multi_annual_means net_bad_period precipitation ∅ None st0
  = (Raise TypeError, st0)
  ∧ (main net_bad_period init roster_91 st0).1 = Raise TypeError.
Proof. vm_compute. done. Qed.

(** In general: an exception at the start year leaves the turn of the loop
    as a [TypeError]. *)
Lemma multi_annual_row_step_bad_period (station_ids : option (list string))
    (data_points : list entry) (row : entry) (sid ref : pyval) (e : exn)
    (st : state) :
  row !! "station_id" = Some sid →
  row !! "reference_period" = Some ref →
  Forall (fun nk : Z * string => is_Some (row !! nk.2)) month_keys →
  filtered_out station_ids sid = false →
  start_year_of ref = Raise e →
  multi_annual_row_step station_ids data_points row st = (Raise TypeError, st).
Proof.
  intros Hsid Href Hmonths Hfilter Hyear.
  unfold multi_annual_row_step, bind, lift, try_m, getitem, ret.
  by rewrite Hsid, Hfilter, Href, (month_values_of_ok _ _ Hmonths), Hyear.
Qed.

(** C5 fails on the code: only [fetch_and_write_zip] catches a failed fetch.
    When the multi-annual means files cannot be fetched, an init run ends
    with the exception and writes nothing, although the recent archive of
    the configured station is there and is written when it is asked for;
    when the directory listing cannot be fetched, a historical run ends with
    the exception on the first listing.  A tracking run on the same remote,
    where every fetch is that of an archive, logs the failures and
    returns. *)
Theorem fetch_failure_aborts_run :
  (main net_no_means init roster_91 st0).1 = Raise RequestException
  ∧ sink (main net_no_means init roster_91 st0).2 = []
  ∧ length
      (sink (fetch_recent_or_now_10min_data net_no_means ["00091"]
               precipitation recent ∅ st0).2) = 1%nat
  ∧ (fetch_multi_annual_means net_no_means precipitation ∅ None st0).1
    = Raise RequestException
  ∧ (list_dwd_files net_down (HISTORICAL_URLS precipitation)
       (type_prefix precipitation) "_hist.zip" st0).1
    = Raise RequestException
  ∧ (main net_down historical roster_91 st0).1 = Raise RequestException
  ∧ (main net_down tracking roster_91 st0).1 = Ok tt.
Proof. vm_compute. done. Qed.

(** ** Instances *)

(** The decoder on a file: the header and the row without any value are left
    out, the short row is dropped, the rows with one value are kept. *)
Example parse_10min_temp_example :
  match (parse_10min_temp
           "STATIONS_ID;MESS_DATUM;  QN;PP_10;TT_10;TM5_10;RF_10;TD_10;eor
         91;202001010000;    3;  -999;   5.5;  -999;  -999;   1.2;eor
         91;202001010010;    3;  -999;  -999;  -999;  -999;   1.2;eor
         91;202001010020;    3;  -999;  -999;  -999;  88.5;   1.2;eor
         91;202001010030;    3
" st0).1 with
  | Ok rows =>
      List.map (fun r : entry =>
                  (r !! "temperature_10min", r !! "humidity_10min")) rows
  | Raise _ => []
  end
  = [(Some (VFloat (Ffin false 11 (-1))), Some VNone);
     (Some VNone, Some (VFloat (Ffin false 177 (-1))))].
Proof. vm_compute. reflexivity. Qed.

Lemma multi_annual_twelve_points_witness :
  multi_annual_record means_parts = Ok means_row
  ∧ start_year_of (VStr "1961-1990") = Ok 1961
  ∧ ∃ twelve,
      multi_annual_row_step None [] means_row st0 = (Ok ([] ++ twelve), st0)
      ∧ length twelve = 12%nat.
Proof.
  assert (multi_annual_record means_parts = Ok means_row) as Hrow
    by exact (eq_refl (Ok means_row)
              <: multi_annual_record means_parts = Ok means_row).
  split; [exact Hrow|]. split; [reflexivity|].
  destruct (multi_annual_twelve_points None [] means_parts means_row 1961 st0
              Hrow)
    as (twelve & Hrun & Hlen & _);
    [vm_compute; reflexivity..|lia|].
  exists twelve. split; [exact Hrun|exact Hlen].
Defined.

(** C8, as stated, fails: the reference period [0-1990] has the integer 0
    before its [-], and the decoded record gets no point; the constructor of
    the instant raises [ValueError], and the pass over the file ends with
    it. *)
Lemma start_year_zero_no_points :
  multi_annual_record means_parts_year_0 = Ok means_row_year_0
  ∧ means_row_year_0 !! "reference_period" = Some (VStr "0-1990")
  ∧ start_year_of (VStr "0-1990") = Ok 0
  ∧ multi_annual_row_step None [] means_row_year_0 st0
    = (Raise ValueError, st0)
  ∧ fetch_multi_annual_means net_year_0 precipitation ∅ None st0
    = (Raise ValueError, st0).
Proof.
  split; [|split; [|split; [|split]]]; vm_compute; reflexivity.
Qed.

(** The January point of that record: the first of January 1961, with the
    value 42.5. *)
Example january_1961 :
  match (multi_annual_row_step None [] means_row st0).1 with
  | Ok (e :: _) =>
      let p := (build_point "multi_annual_precipitation" ∅ e).1 in
      (p_time p, p_fields p !! "value", p_tags p !! "station_id")
  | _ => (None, None, None)
  end
  = (Some (VTime (Datetime.mk 1961 1 1 0 0)),
     Some (VFloat (Ffin false 85 (-1))),
     Some (VStr "00091")).
Proof. vm_compute. reflexivity. Qed.

(** The start year is the integer before the first [-]. *)
Lemma split_before_sep (sep : ascii) (a b : string) :
  Str.split sep a = [a] →
  ∃ rest, Str.split sep (a +:+ String sep b) = a :: rest.
Proof.
  revert b. induction a as [|c a IH]; intros b Ha.
  - rewrite str_app_nil_l. simpl. rewrite Ascii.eqb_refl. eauto.
  - rewrite str_app_cons. simpl in *. destruct (Ascii.eqb c sep); [done|].
    destruct (Str.split sep a) as [|f fs] eqn:Hs.
    + injection Ha as <-. rewrite str_app_nil_l. simpl.
      rewrite Ascii.eqb_refl. eauto.
    + injection Ha as -> ->. destruct (IH b eq_refl) as [rest ->]. eauto.
Qed.

Lemma start_year_of_before_dash (a b : string) :
  Str.split "-" a = [a] →
  start_year_of (VStr (a +:+ String "-" b)) = int a.
Proof.
  intros Ha. unfold start_year_of. simpl.
  by destruct (split_before_sep "-" a b Ha) as [rest ->].
Qed.

Lemma builder_mutates_records_witness :
  Forall (fun l => is_Some (one_record_heap !! l)) [0%nat; 0%nat]
  ∧ ∃ h1 st1,
      write_points_to_influx one_record_heap [0%nat; 0%nat] "temp_10min" ∅ st0
      = (Ok h1, st1)
      ∧ ∀ l, l ∈ [0%nat; 0%nat] →
          ∃ e, h1 !! l = Some e
               ∧ e !! "station_id" = None ∧ e !! "time" = None.
Proof.
  assert (Forall (fun l => is_Some (one_record_heap !! l)) [0%nat; 0%nat])
    as Hlive by (repeat constructor; by eexists).
  split; [exact Hlive|].
  destruct (builder_mutates_records one_record_heap [0%nat; 0%nat]
              "temp_10min" ∅ st0 Hlive) as (h1 & st1 & Hrun & Hkeys & _).
  exists h1, st1. split; [exact Hrun|exact Hkeys].
Defined.

(** The first call tags and dates the point; the second call on the same
    record does neither. *)
Example builder_twice :
  let r1 := build_points "temp_10min" ∅ one_record_heap [0%nat] in
  let r2 := build_points "temp_10min" ∅ r1.2 [0%nat] in
  ((fun p => (p_tags p !! "station_id", p_time p)) <$> r1.1)
  = [(Some (VStr "91"), Some (VTime (Datetime.mk 2020 1 1 0 0)))]
  ∧ ((fun p => (p_tags p !! "station_id", p_time p)) <$> r2.1)
    = [(None, None)].
Proof. vm_compute. done. Qed.


Lemma zip_fetch_failure_skipped_witness :
  failed (net_means (RECENT_URLS precipitation
                     +:+ recent_or_now_name precipitation recent "00091"))
  = true
  ∧ ∃ st',
      fetch_and_write_zip net_means
        (RECENT_URLS precipitation
         +:+ recent_or_now_name precipitation recent "00091")
        precipitation ∅ st0 = (Ok tt, st')
      ∧ sink st' = sink st0.
Proof.
  split; [reflexivity|].
  destruct (zip_fetch_failure_skipped net_means precipitation ∅
              (RECENT_URLS precipitation
               +:+ recent_or_now_name precipitation recent "00091") st0)
    as [(st' & Hrun & Hsink & _) _]; [reflexivity|].
  exists st'. split; [exact Hrun|exact Hsink].
Defined.

(** ** The embedded library functions on sample inputs *)

Example splitlines_samples :
  Str.splitlines (String "a" (String "013" (String "010" (String "b"
                    (String "010" (String "010" "c"))))))
  = ["a"; "b"; EmptyString; "c"]
  ∧ Str.splitlines (String "a" (String "010" EmptyString)) = ["a"]
  ∧ Str.splitlines EmptyString = [].
Proof. repeat split. Qed.

Example split_strip_samples :
  Str.split ";" "a; b ;;" = ["a"; " b "; EmptyString; EmptyString]
  ∧ Str.split ";" EmptyString = [EmptyString]
  ∧ Str.strip "  91 " = "91"
  ∧ Str.replace "," "." "42,5" = "42.5".
Proof. repeat split. Qed.

Example zfill_samples :
  Str.zfill 5 "91" = "00091" ∧ Str.zfill 5 "-91" = "-0091"
  ∧ Str.zfill 5 "123456" = "123456" ∧ Str.zfill 5 EmptyString = "00000".
Proof. repeat split. Qed.

Example float_samples :
  Num.float_of_str "42.5" = Some (Ffin false 85 (-1))
  ∧ Num.float_of_str "42.50" = Some (Ffin false 85 (-1))
  ∧ Num.float_of_str "-999" = Some (Ffin true 999 0)
  ∧ Num.float_of_str " 1_0.5e1 " = Some (Ffin false 105 0)
  ∧ Num.float_of_str ".5" = Some (Ffin false 1 (-1))
  ∧ Num.float_of_str "0.1" = Some (Ffin false 3602879701896397 (-55))
  ∧ Num.float_of_str "9007199254740993" = Some (Ffin false 1 53)
  ∧ Num.float_of_str "1e23" = Some (Ffin false 2980232238769531 25)
  ∧ Num.float_of_str "1.7976931348623157e308"
    = Some (Ffin false 9007199254740991 971)
  ∧ Num.float_of_str "1.7976931348623159e308" = Some (Finf false)
  ∧ Num.float_of_str "1e400" = Some (Finf false)
  ∧ Num.float_of_str "5e-324" = Some (Ffin false 1 (-1074))
  ∧ Num.float_of_str "2e-324" = Some (Ffin false 0 0)
  ∧ Num.float_of_str "-0.0" = Some (Ffin true 0 0)
  ∧ Num.float_of_str "-Infinity" = Some (Finf true)
  ∧ Num.float_of_str "NaN" = Some Fnan
  ∧ Num.float_of_str (String "031" "1.5") = None
  ∧ Num.float_of_str (String "160" "1.5") = Some (Ffin false 3 (-1))
  ∧ Num.float_of_str "42,5" = None
  ∧ Num.float_of_str "." = None
  ∧ Num.float_of_str "1e" = None
  ∧ Num.float_of_str "1__0" = None
  ∧ Num.float_of_str EmptyString = None.
Proof. vm_compute. repeat split. Qed.

Example int_samples :
  Num.int_of_str "1961" = Some 1961
  ∧ Num.int_of_str " 19_61 " = Some 1961
  ∧ Num.int_of_str "-0" = Some 0
  ∧ Num.int_of_str ("1961" +:+ String "031" EmptyString) = None
  ∧ Num.int_of_str ("1961" +:+ String "133" EmptyString) = Some 1961
  ∧ Num.int_of_str (Str.zeros 4300 +:+ "1") = None
  ∧ Num.int_of_str (Str.zeros 4299 +:+ "1") = Some 1
  ∧ Num.int_of_str "abcd" = None
  ∧ Num.int_of_str "19.61" = None
  ∧ Num.int_of_str EmptyString = None.
Proof. vm_compute. repeat split. Qed.

Example strptime_samples :
  Datetime.strptime "202002291230" = Ok (Datetime.mk 2020 2 29 12 30)
  ∧ Datetime.strptime "202102291230" = Raise ValueError
  ∧ Datetime.strptime "2020010100000" = Raise ValueError
  ∧ Datetime.strptime "20200101" = Raise ValueError
  ∧ Datetime.strptime "000001010000" = Raise ValueError
  ∧ Datetime.strptime "20201231235" = Ok (Datetime.mk 2020 12 31 23 5).
Proof. repeat split. Qed.

Example csv_reader_samples :
  Csv.reader_rows ";" ["a;b; c ;;eor"; EmptyString; ";"; "x"]
  = ([["a"; "b"; " c "; EmptyString; "eor"]; []; [EmptyString; EmptyString];
      ["x"]], false)
  ∧ Csv.reader_rows ";"
      [String Csv.quotechar ("a;b" +:+ String Csv.quotechar ";c")]
    = ([["a;b"; "c"]], false)
  ∧ Csv.reader_rows ";" ["a;b"; String Csv.quotechar "c"; "d"]
    = ([["a"; "b"]; ["cd"]], false)
  ∧ (Csv.reader_rows ";" ["a;b"; Str.zeros (N.to_nat 131072)]).2 = false
  ∧ Csv.reader_rows ";" ["a;b"; Str.zeros (N.to_nat 131073); "c"]
    = ([["a"; "b"]], true).
Proof. vm_compute. repeat split. Qed.

(** A field of 131073 characters: the decoders raise the reader's error. *)
Example oversized_field :
  (parse_10min_temp (temp_file +:+ Str.zeros (N.to_nat 131073)) st0).1
  = Raise CsvError
  ∧ (parse_10min_precip (precip_file +:+ Str.zeros (N.to_nat 131073)) st0).1
    = Raise CsvError.
Proof. vm_compute. repeat split. Qed.

Example multi_annual_url :
  MULTI_ANNUAL_TEMPLATES precipitation (short_period_of "1961-1990")
    "1961-1990"
  = "https://opendata.dwd.de/climate_environment/CDC/observations_germany/climate/multi_annual/mean_61-90/Niederschlag_1961-1990.txt".
Proof. reflexivity. Qed.

(** ** Decoders as maps over the lines *)

(** A loop whose every turn appends to the result and to the log, and
    nothing else, collects what the turns append. *)
Lemma foldM_collect {A B} (f : list B → A → M (list B))
    (g : A → list B) (w : A → list logrec) :
  (∀ acc x st,
     f acc x st = (Ok (acc ++ g x), mkState (sink st) (log st ++ w x))) →
  ∀ xs acc st,
    foldM f xs acc st
    = (Ok (acc ++ concat (g <$> xs)),
       mkState (sink st) (log st ++ concat (w <$> xs))).
Proof.
  intros Hstep. induction xs as [|x xs IH]; intros acc st; simpl.
  - rewrite !app_nil_r. by destruct st.
  - unfold bind. rewrite Hstep, IH. simpl. by rewrite <- !app_assoc.
Qed.

Lemma digit_bound (c : ascii) (d : N) : Num.digit c = Some d → (d <= 9)%N.
Proof.
  unfold Num.digit. destruct (_ && _) eqn:Hd; [|done]. intros [= <-].
  apply andb_true_iff in Hd as [H1%N.leb_le H2%N.leb_le]. lia.
Qed.

Lemma dig_bound (lo hi : N) (s : string) (v : Z) (r : string) :
  (v, r) ∈ Datetime.dig lo hi s → 0 ≤ v ≤ 9.
Proof.
  unfold Datetime.dig. destruct s as [|c s]; [by intros ?%elem_of_nil|].
  destruct (Num.digit c) as [d|] eqn:Hd; [|by intros ?%elem_of_nil].
  apply digit_bound in Hd.
  destruct (_ && _); [|by intros ?%elem_of_nil].
  intros [= -> ->]%list_elem_of_singleton. lia.
Qed.

Lemma seq2_elem (p q : Datetime.matcher) (s : string) (v : Z) (r : string) :
  (v, r) ∈ Datetime.seq2 p q s →
  ∃ a b r1, (a, r1) ∈ p s ∧ (b, r) ∈ q r1 ∧ v = 10 * a + b.
Proof.
  unfold Datetime.seq2. intros ([a r1] & H & Ha)%list_elem_of_bind.
  apply list_elem_of_bind in H as ([b r2] & H & Hb).
  apply list_elem_of_singleton in H as [= -> ->]. eauto 6.
Qed.

Lemma dY_bound (s : string) (v : Z) (r : string) :
  (v, r) ∈ Datetime.dY s → 0 ≤ v ≤ 9999.
Proof.
  unfold Datetime.dY.
  intros (a & d4 & r3 & Ha & H4%dig_bound & ->)%seq2_elem.
  apply seq2_elem in Ha as (b & d3 & r2 & Hb & H3%dig_bound & ->).
  apply seq2_elem in Hb as (d1 & d2 & r1 & H1%dig_bound & H2%dig_bound & ->).
  lia.
Qed.

(** [strptime] raises nothing but [ValueError]. *)
Lemma strptime_raises (s : string) (e : exn) :
  Datetime.strptime s = Raise e → e = ValueError.
Proof.
  unfold Datetime.strptime.
  destruct (Datetime.matches s) as [|[[[[[y m] d] h] mi] r] ms] eqn:Hm;
    [congruence|].
  destruct r; [|congruence].
  assert ((y, m, d, h, mi, EmptyString) ∈ Datetime.matches s) as Hin
    by (rewrite Hm; left).
  unfold Datetime.matches in Hin.
  apply list_elem_of_bind in Hin as ([y' r1] & Hin & Hy%dY_bound).
  apply list_elem_of_bind in Hin as ([m' r2] & Hin & _).
  apply list_elem_of_bind in Hin as ([d' r3] & Hin & _).
  apply list_elem_of_bind in Hin as ([h' r4] & Hin & _).
  apply list_elem_of_bind in Hin as ([mi' r5] & Hin & _).
  apply list_elem_of_singleton in Hin as [= -> -> -> -> -> <-].
  unfold Datetime.make.
  assert ((- 2 ^ 31 <=? y') && (y' <? 2 ^ 31) = true) as ->.
  { apply andb_true_iff. split; [apply Z.leb_le|apply Z.ltb_lt]; lia. }
  simpl. destruct (_ && _); congruence.
Qed.

Lemma sentinel_float_raises (tok : string) (e : exn) :
  sentinel_float tok = Raise e → e = ValueError.
Proof.
  unfold sentinel_float. destruct (bool_decide _); [|done].
  intros [H|(? & _ & H)]%res_bind_Raise; [by eapply float_raises|done].
Qed.

Lemma temp_record_raises (row : list string) (e : exn) :
  temp_record row = Raise e → e = IndexError ∨ e = ValueError.
Proof.
  unfold temp_record. intros H.
  repeat (apply res_bind_Raise in H as [H|(? & _ & H)];
          [first [ by left; eapply index_raises
                 | by right; eapply strptime_raises
                 | by right; eapply sentinel_float_raises ] |]).
  repeat case_match; done.
Qed.

Lemma precip_record_raises (row : list string) (e : exn) :
  precip_record row = Raise e → e = IndexError ∨ e = ValueError.
Proof.
  unfold precip_record. intros H.
  repeat (apply res_bind_Raise in H as [H|(? & _ & H)];
          [first [ by left; eapply index_raises
                 | by right; eapply strptime_raises
                 | by right; eapply sentinel_float_raises ] |]).
  repeat case_match; done.
Qed.

Lemma parse_10min_temp_step_collect (out : list entry) (row : list string)
    (st : state) :
  parse_10min_temp_step out row st
  = (Ok (out ++ temp_row_records row), mkState (sink st) (log st ++ [])).
Proof.
  rewrite app_nil_r. unfold parse_10min_temp_step, temp_row_records.
  destruct (skipped_row row); [rewrite app_nil_r; by destruct st|].
  unfold try_m, bind, lift, ret.
  destruct (temp_record row) as [r|e] eqn:Hr; [by destruct st|].
  apply temp_record_raises in Hr as [-> | ->]; simpl; rewrite app_nil_r;
    by destruct st.
Qed.

Lemma foldM_no_log {A} (xs : list A) (lg : list logrec) :
  lg ++ concat ((fun _ : A => @nil logrec) <$> xs) = lg.
Proof. induction xs; simpl; [apply app_nil_r|done]. Qed.

Lemma parse_10min_temp_run (csv_content : string) (st : state) :
  let reader := Csv.reader_rows ";" (Str.splitlines csv_content) in
  parse_10min_temp csv_content st
  = (if reader.2 then Raise CsvError
     else Ok (concat (temp_row_records <$> reader.1)), st).
Proof.
  intros reader. unfold parse_10min_temp. fold reader. unfold bind.
  rewrite (foldM_collect parse_10min_temp_step temp_row_records (fun _ => []))
    by apply parse_10min_temp_step_collect.
  rewrite foldM_no_log. destruct st as [sk lg]. simpl.
  by destruct (reader.2).
Qed.

(** X1.  The temperature decoder writes nothing and logs nothing.  When the
    reader reads the whole text, the result is, row by row and in order, what
    each row contributes on its own; when the reader raises [_csv.Error] (a
    field longer than the field size limit), the decoder raises it. *)
Theorem parse_10min_temp_rowwise (csv_content : string) (st : state) :
  let reader := Csv.reader_rows ";" (Str.splitlines csv_content) in
  parse_10min_temp csv_content st
  = (if reader.2 then Raise CsvError
     else Ok (concat (temp_row_records <$> reader.1)), st).
Proof.
  intros reader. unfold parse_10min_temp. fold reader. unfold bind.
  rewrite (foldM_collect parse_10min_temp_step temp_row_records (fun _ => []))
    by apply parse_10min_temp_step_collect.
  rewrite foldM_no_log. destruct st as [sk lg]. simpl.
  by destruct (reader.2).
Qed.

Lemma parse_10min_temp_Ok (csv_content : string) (st st' : state)
    (out : list entry) :
  parse_10min_temp csv_content st = (Ok out, st') →
  out = concat (temp_row_records
                  <$> (Csv.reader_rows ";" (Str.splitlines csv_content)).1)
  ∧ st' = st.
Proof.
  rewrite parse_10min_temp_run.
  destruct (Csv.reader_rows _ _).2; [done|]. by intros [= <- <-].
Qed.

Lemma temp_row_records_step (row : list string) (recs : list entry)
    (st st' : state) :
  parse_10min_temp_step [] row st = (Ok ([] ++ recs), st') →
  temp_row_records row = recs.
Proof. rewrite parse_10min_temp_step_collect. by intros [= <-]. Qed.

(** C7: in the output of the temperature decoder, a well-formed row of the
    file contributes nothing exactly when both the temperature and the
    humidity token are the sentinel [-999]; when exactly one of them is, it
    contributes one record, with the other value present. *)
Theorem temp_row_excluded_iff_both_missing (csv_content : string)
    (st st' : state) (out : list entry) :
  parse_10min_temp csv_content st = (Ok out, st') →
  ∀ (pre post : list (list string)) (row : list string) (c4 c6 : string),
    (Csv.reader_rows ";" (Str.splitlines csv_content)).1
    = pre ++ row :: post →
    well_formed_temp_row row = true →
    row !! 4%nat = Some c4 → row !! 6%nat = Some c6 →
    let tt_10 := Str.strip c4 in
    let rf_10 := Str.strip c6 in
    ∃ recs,
      out = concat (temp_row_records <$> pre) ++ recs
            ++ concat (temp_row_records <$> post)
      ∧ (length recs ≤ 1)%nat
      ∧ (recs = [] ↔ tt_10 = "-999" ∧ rf_10 = "-999")
      ∧ (tt_10 = "-999" → rf_10 ≠ "-999" →
         ∃ r v, recs = [r] ∧ float rf_10 = Ok v
                ∧ r !! "temperature_10min" = Some VNone
                ∧ r !! "humidity_10min" = Some (VFloat v))
      ∧ (tt_10 ≠ "-999" → rf_10 = "-999" →
         ∃ r v, recs = [r] ∧ float tt_10 = Ok v
                ∧ r !! "temperature_10min" = Some (VFloat v)
                ∧ r !! "humidity_10min" = Some VNone).
Proof.
  intros Hrun pre post row c4 c6 Hrows Hwf H4 H6 tt_10 rf_10.
  apply parse_10min_temp_Ok in Hrun as [-> _]. rewrite Hrows.
  destruct (parse_10min_temp_step_well_formed [] row c4 c6 st Hwf H4 H6)
    as (recs & Hstep & Hrest).
  apply temp_row_records_step in Hstep.
  exists recs. split; [|exact Hrest].
  by rewrite fmap_app, concat_app, fmap_cons, concat_cons, Hstep.
Qed.

Lemma temp_row_excluded_iff_both_missing_witness :
  parse_10min_temp temp_file st0 = (Ok [temp_record_no_humidity], st0)
  ∧ ∃ r v,
      [temp_record_no_humidity] = [r]
      ∧ float "5.5" = Ok v
      ∧ r !! "temperature_10min" = Some (VFloat v)
      ∧ r !! "humidity_10min" = Some VNone.
Proof.
  assert (parse_10min_temp temp_file st0
          = (Ok [temp_record_no_humidity], st0)) as Hrun
    by (vm_compute; reflexivity).
  split; [exact Hrun|].
  destruct (temp_row_excluded_iff_both_missing temp_file st0 st0
              [temp_record_no_humidity] Hrun
              [["STATIONS_ID"; "MESS_DATUM"; "  QN"; "PP_10"; "TT_10";
                "TM5_10"; "RF_10"; "TD_10"; "eor"]]
              [["         91"; "202001010010"; "    3"; "  -999"; "  -999";
                "  -999"; "  -999"; "   1.2"; "eor"]]
              temp_row_no_humidity "   5.5" "  -999")
    as (recs & Hout & _ & _ & _ & Hone);
    [vm_compute; reflexivity|reflexivity..|].
  destruct Hone as (r & v & -> & Hv & Ht & Hh); [discriminate|reflexivity|].
  exists r, v. split; [exact Hout|].
  split; [exact Hv|]. split; [exact Ht|exact Hh].
Defined.





Lemma parse_10min_precip_step_collect (out : list entry) (row : list string)
    (st : state) :
  parse_10min_precip_step out row st
  = (Ok (out ++ precip_row_records row),
     mkState (sink st) (log st ++ precip_row_warnings row)).
Proof.
  unfold parse_10min_precip_step, precip_row_records, precip_row_warnings.
  destruct (skipped_row row); [rewrite !app_nil_r; by destruct st|].
  unfold try_m, bind, lift, ret, logger.
  destruct (precip_record row) as [r|e] eqn:Hr;
    [rewrite app_nil_r; by destruct st|].
  apply precip_record_raises in Hr as [-> | ->]; simpl; by rewrite app_nil_r.
Qed.


(** X3.  The precipitation decoder writes nothing, and the log grows by one
    warning for each row read that is neither skipped nor decoded.  When the
    reader reads the whole text, the result is, row by row and in order, what
    each row contributes on its own; when the reader raises [_csv.Error] (a
    field longer than the field size limit), the decoder raises it, after the
    warnings of the rows read before. *)
Theorem parse_10min_precip_rowwise (csv_content : string) (st : state) :
  let reader := Csv.reader_rows ";" (Str.splitlines csv_content) in
  parse_10min_precip csv_content st
  = (if reader.2 then Raise CsvError
     else Ok (concat (precip_row_records <$> reader.1)),
     mkState (sink st)
       (log st ++ concat (precip_row_warnings <$> reader.1))).
Proof.
  intros reader. unfold parse_10min_precip. fold reader. unfold bind.
  rewrite (foldM_collect parse_10min_precip_step precip_row_records
             precip_row_warnings) by apply parse_10min_precip_step_collect.
  simpl. by destruct (reader.2).
Qed.




Lemma parse_multi_annual_means_step_collect (results : list entry)
    (line0 : string) (st : state) :
  parse_multi_annual_means_step results line0 st
  = (Ok (results ++ means_line_records line0),
     mkState (sink st) (log st ++ means_line_warnings line0)).
Proof.
  unfold parse_multi_annual_means_step, means_line_records,
    means_line_warnings, skipped_line.
  destruct (_ || _); [rewrite !app_nil_r; by destruct st|].
  unfold try_m, bind, lift, ret, logger.
  destruct (multi_annual_record _) as [r|e] eqn:Hr;
    [rewrite app_nil_r; by destruct st|].
  apply multi_annual_record_raises in Hr as [-> | ->]; simpl;
    by rewrite app_nil_r.
Qed.

(** X5.  The multi-annual means decoder returns on every text and writes
    nothing; its result is, line by line and in order, what each line
    contributes on its own, and the log grows by one warning for each line
    that is neither skipped nor decoded. *)
Theorem parse_multi_annual_means_linewise (content : string) (st : state) :
  parse_multi_annual_means content st
  = (Ok (concat (means_line_records <$> Str.splitlines content)),
     mkState (sink st)
       (log st ++ concat (means_line_warnings <$> Str.splitlines content))).
Proof.
  unfold parse_multi_annual_means.
  apply (foldM_collect parse_multi_annual_means_step means_line_records
           means_line_warnings), parse_multi_annual_means_step_collect.
Qed.

(** X6.  A line of a multi-annual means file is decoded only if it has at
    least sixteen columns; the record then holds the first two columns as
    station id and reference period, and its year value is null exactly when
    the sixteenth column is blank. *)
Theorem multi_annual_record_columns (parts : list string) (r : entry) :
  multi_annual_record parts = Ok r →
  (16 ≤ length parts)%nat
  ∧ ∃ sid ref p15,
      parts !! 0%nat = Some sid ∧ parts !! 1%nat = Some ref
      ∧ parts !! 15%nat = Some p15
      ∧ r !! "station_id" = Some (VStr sid)
      ∧ r !! "reference_period" = Some (VStr ref)
      ∧ (p15 = EmptyString → r !! "Year" = Some VNone)
      ∧ (p15 ≠ EmptyString →
         ∃ f, Num.float_of_str (Str.replace "," "." p15) = Some f
              ∧ r !! "Year" = Some (VFloat f)).
Proof.
  unfold multi_annual_record. intros H.
  apply res_bind_Ok in H as (sid & Hsid & H).
  apply res_bind_Ok in H as (ref & Href & H).
  do 12 (apply res_bind_Ok in H as (? & _ & H)).
  apply res_bind_Ok in H as (p15 & H15 & H).
  apply res_bind_Ok in H as (yv & Hyv & H).
  injection H as <-. unfold index in *.
  destruct (parts !! 0%nat) eqn:H0; [|done].
  destruct (parts !! 1%nat) eqn:H1; [|done].
  destruct (parts !! 15%nat) eqn:E15; [|done].
  injection Hsid as ->. injection Href as ->. injection H15 as ->.
  split; [apply lookup_lt_Some in E15; lia|].
  exists sid, ref, p15. do 5 (split; [reflexivity|]). split.
  - intros ->. simpl in Hyv. by injection Hyv as <-.
  - intros Hne. destruct p15 as [|c p]; [done|]. simpl in Hyv.
    apply res_bind_Ok in Hyv as (f & Hf & Hyv). injection Hyv as <-.
    unfold float in Hf. destruct (Num.float_of_str _) as [f'|] eqn:Ef; [|done].
    injection Hf as ->. exists f. split; [done|reflexivity].
Qed.

Lemma multi_annual_record_columns_witness :
  multi_annual_record means_parts = Ok means_row
  ∧ (16 ≤ length means_parts)%nat.
Proof.
  assert (multi_annual_record means_parts = Ok means_row) as Hrow
    by exact (eq_refl (Ok means_row)
              <: multi_annual_record means_parts = Ok means_row).
  split; [exact Hrow|].
  apply (multi_annual_record_columns means_parts means_row Hrow).
Defined.

(** ** More on the point builder *)

(** X7.  On every point the builder makes, [station_id] and [time] are never
    among the fields, every other attribute of the record is a field with
    its value, and the only tags are [station_id] and [station_name]. *)
Theorem point_identity_not_in_fields (measurement : string)
    (station_map : gmap string string) (e : entry) :
  let p := (build_point measurement station_map e).1 in
  p_name p = measurement
  ∧ p_fields p !! "station_id" = None
  ∧ p_fields p !! "time" = None
  ∧ (∀ k, k ≠ "station_id" → k ≠ "time" → p_fields p !! k = e !! k)
  ∧ (∀ k, is_Some (p_tags p !! k) → k = "station_id" ∨ k = "station_name").
Proof.
  intros p. subst p.
  destruct (build_point_spec measurement station_map e)
    as (_ & -> & -> & _ & ->).
  split; [done|]. split; [by rewrite lookup_delete_ne, lookup_delete_eq|].
  split; [by rewrite lookup_delete_eq|].
  split; [intros k ? ?; by rewrite !lookup_delete_ne|].
  intros k [v Hv]. destruct (truthy _); [|by rewrite lookup_empty in Hv].
  destruct (station_name _ _).
  - apply lookup_insert_Some in Hv as [[<- _]|[_ Hv]]; [by right|].
    apply lookup_singleton_Some in Hv as [<- _]. by left.
  - apply lookup_singleton_Some in Hv as [<- _]. by left.
Qed.

(** X8.  The tags of a point: a record with a non-empty station id is tagged
    with it, and with the station's name exactly when the station map has a
    non-empty name for that id; a record whose station id is missing, null
    or the empty string gets no tag at all. *)
Theorem point_tags (measurement : string) (station_map : gmap string string)
    (e : entry) :
  let p := (build_point measurement station_map e).1 in
  (∀ sid, e !! "station_id" = Some (VStr sid) → sid ≠ EmptyString →
     p_tags p !! "station_id" = Some (VStr sid)
     ∧ (∀ name, p_tags p !! "station_name" = Some (VStr name)
                ↔ station_map !! sid = Some name ∧ name ≠ EmptyString))
  ∧ (e !! "station_id" = None ∨ e !! "station_id" = Some VNone
     ∨ e !! "station_id" = Some (VStr EmptyString) →
     p_tags p = ∅).
Proof.
  intros p. subst p.
  destruct (build_point_spec measurement station_map e)
    as (_ & _ & _ & _ & ->).
  split.
  - intros sid -> Hne. simpl.
    assert (Str.nonempty sid = true) as -> by by destruct sid.
    destruct (station_map !! sid) as [name|] eqn:Hn.
    + destruct name as [|c name]; simpl.
      * split; [by rewrite lookup_singleton_eq|]. intros name'.
        rewrite lookup_singleton_ne by done.
        split; [done|]. intros [[= <-] ?]. done.
      * split; [by rewrite lookup_insert_ne, lookup_singleton_eq|].
        intros name'. rewrite lookup_insert_eq.
        split; [by intros [= <-]|]. by intros [[= <-] _].
    + split; [by rewrite lookup_singleton_eq|]. intros name'.
      rewrite lookup_singleton_ne by done. split; [done|]. by intros [? _].
  - by intros [-> | [-> | ->]].
Qed.

Lemma point_tags_witness :
  p_tags (build_point "temp_10min" {["91" := "Aachen"]}
            (one_record_heap !!! 0%nat)).1 !! "station_id"
  = Some (VStr "91").
Proof.
  apply (point_tags "temp_10min" {["91" := "Aachen"]}
           (one_record_heap !!! 0%nat)); [reflexivity|discriminate].
Defined.

Lemma build_points_length (measurement : string)
    (station_map : gmap string string) (data_list : list nat) :
  ∀ h : heap,
    Forall (fun l => is_Some (h !! l)) data_list →
    length (build_points measurement station_map h data_list).1
    = length data_list.
Proof.
  induction data_list as [|l ls IH]; intros h Hlive; [done|].
  rewrite build_points_cons. inversion Hlive as [|? ? [e He] Hrest]; subst.
  rewrite He. cbn [fst snd length]. rewrite IH; [done|].
  eapply Forall_impl; [exact Hrest|]. intros l' Hl'. simpl in *.
  apply lookup_lt_is_Some. apply lookup_lt_is_Some in Hl'.
  by rewrite length_insert.
Qed.

(** X9.  A call of the builder never raises and never logs above info
    level.  On the empty list it leaves the sink as it is; on a non-empty
    list it writes exactly one batch, with one point per element of the
    list. *)
Theorem write_points_one_batch (h : heap) (data_list : list nat)
    (measurement : string) (station_map : gmap string string) (st : state) :
  Forall (fun l => is_Some (h !! l)) data_list →
  ∃ h' st',
    write_points_to_influx h data_list measurement station_map st
    = (Ok h', st')
    ∧ log st' = log st
    ∧ length h' = length h
    ∧ match data_list with
      | [] => sink st' = sink st
      | _ => ∃ points, sink st' = sink st ++ [points]
                       ∧ length points = length data_list
      end.
Proof.
  intros Hlive. rewrite write_points_to_influx_spec. cbv zeta.
  pose proof (build_points_length measurement station_map data_list h Hlive)
    as Hlen.
  eexists _, _. split; [reflexivity|]. split; [done|]. split.
  - clear Hlen Hlive. revert h.
    induction data_list as [|l ls IH]; intros h; [done|].
    rewrite build_points_cons. destruct (h !! l); [|apply IH].
    cbn [fst snd]. by rewrite IH, length_insert.
  - destruct data_list as [|l ls]; [done|].
    destruct (build_points measurement station_map h (l :: ls)).1
      as [|p ps] eqn:Hp; [done|].
    cbn [sink]. eauto.
Qed.

Lemma write_points_one_batch_witness :
  Forall (fun l => is_Some (one_record_heap !! l)) [0%nat; 0%nat]
  ∧ ∃ h' st',
      write_points_to_influx one_record_heap [0%nat; 0%nat] "temp_10min" ∅
        st0 = (Ok h', st')
      ∧ log st' = log st0.
Proof.
  assert (Forall (fun l => is_Some (one_record_heap !! l)) [0%nat; 0%nat])
    as Hlive by (repeat constructor; by eexists).
  split; [exact Hlive|].
  destruct (write_points_one_batch one_record_heap [0%nat; 0%nat]
              "temp_10min" ∅ st0 Hlive) as (h' & st' & Hrun & Hlog & _).
  by exists h', st'.
Defined.


(** X10.  The batch written for a freshly decoded list holds the points of
    its records, one per record and in the order of the list. *)
Theorem write_fresh_batch (records : list entry) (measurement : string)
    (station_map : gmap string string) (st : state) :
  write_fresh records measurement station_map st
  = (Ok tt,
     mkState
       (match records with
        | [] => sink st
        | _ => sink st
               ++ [(fun e => (build_point measurement station_map e).1)
                   <$> records]
        end)
       (log st)).
Proof.
  unfold write_fresh, bind. rewrite write_points_to_influx_spec. cbv zeta.
  rewrite build_points_fresh. unfold ret. by destruct records.
Qed.

(** ** More on the synthesis of monthly points *)

(** X11.  Given a non-empty roster, a record yields its points exactly when
    its station is in the roster, and otherwise adds nothing and logs
    nothing.  An empty roster filters nothing: it acts as no roster. *)
Theorem roster_filter (ids : list string) (data_points : list entry)
    (row : entry) (sid : string) (st : state) :
  ids ≠ [] →
  row !! "station_id" = Some (VStr sid) →
  multi_annual_row_step (Some ids) data_points row st
  = (if bool_decide (sid ∈ ids)
     then multi_annual_row_step None data_points row st
     else (Ok data_points, st))
  ∧ multi_annual_row_step (Some []) data_points row st
    = multi_annual_row_step None data_points row st.
Proof.
  intros Hne Hsid. split; [|reflexivity].
  unfold multi_annual_row_step, bind, lift, getitem, ret. rewrite Hsid.
  destruct ids as [|i ids]; [done|]. cbn [filtered_out].
  assert (bool_decide (VStr sid ∈ VStr <$> i :: ids)
          = bool_decide (sid ∈ i :: ids)) as ->.
  { apply bool_decide_ext. rewrite list_elem_of_fmap. split.
    - by intros (x & [= ->] & ?).
    - eauto. }
  by destruct (bool_decide _).
Qed.

Lemma roster_filter_witness :
  multi_annual_row_step (Some ["00103"]) [] means_row st0 = (Ok [], st0).
Proof.
  destruct (roster_filter ["00103"] [] means_row "00091" st0) as [H _];
    [discriminate|reflexivity|].
  rewrite H. reflexivity.
Defined.

(** X12.  A start year that is an integer but no calendar year is not
    recovered: for a record that passes the filter, the turn of the loop
    raises [ValueError] when the year is outside 1 to 9999 (and fits a C
    int), [OverflowError] when it does not fit; no point is added. *)
Theorem start_year_out_of_range (station_ids : option (list string))
    (data_points : list entry) (parts : list string) (row : entry) (y : Z)
    (st : state) :
  multi_annual_record parts = Ok row →
  filtered_out station_ids (default VNone (row !! "station_id")) = false →
  start_year_of (default VNone (row !! "reference_period")) = Ok y →
  ¬ (1 ≤ y ≤ 9999) →
  multi_annual_row_step station_ids data_points row st
  = (Raise (if (- 2 ^ 31 <=? y) && (y <? 2 ^ 31)
            then ValueError else OverflowError), st).
Proof.
  intros Hrow Hfilter Hyear Hy.
  destruct (multi_annual_record_inv parts row Hrow)
    as (sid & ref & _ & _ & Hsid & Href & Hm).
  rewrite Hsid in Hfilter. rewrite Href in Hyear. simpl in Hfilter, Hyear.
  unfold multi_annual_row_step, bind, lift, try_m, getitem, ret.
  rewrite Hsid, Hfilter, Href.
  rewrite month_values_of_ok
    by (eapply Forall_impl; [exact Hm|]; intros nk (f & _ & ->); eauto).
  rewrite Hyear. cbn [month_keys fmap list_fmap month_points].
  unfold month_point at 1. cbn [fst]. unfold Datetime.make.
  destruct ((- 2 ^ 31 <=? y) && (y <? 2 ^ 31)); [|done]. cbn [negb].
  assert ((1 <=? y) && (y <=? 9999) = false) as ->; [|done].
  destruct (Z.leb_spec 1 y), (Z.leb_spec y 9999); simpl; try done; lia.
Qed.

Lemma start_year_out_of_range_witness :
  multi_annual_record means_parts_year_0 = Ok means_row_year_0
  ∧ multi_annual_row_step None [] means_row_year_0 st0
    = (Raise ValueError, st0).
Proof.
  assert (multi_annual_record means_parts_year_0 = Ok means_row_year_0)
    as Hrow
    by exact (eq_refl (Ok means_row_year_0)
              <: multi_annual_record means_parts_year_0
                 = Ok means_row_year_0).
  split; [exact Hrow|].
  apply (start_year_out_of_range None [] means_parts_year_0 means_row_year_0
           0 st0 Hrow); [vm_compute; reflexivity..|lia].
Defined.

(** X13.  The twelve records synthesized from one decoded record have
    pairwise different times, so that they are twelve different points of
    the same series. *)
Theorem twelve_points_distinct_times (station_ids : option (list string))
    (data_points : list entry) (parts : list string) (row : entry) (y : Z)
    (st : state) :
  multi_annual_record parts = Ok row →
  filtered_out station_ids (default VNone (row !! "station_id")) = false →
  start_year_of (default VNone (row !! "reference_period")) = Ok y →
  1 ≤ y ≤ 9999 →
  ∃ twelve,
    multi_annual_row_step station_ids data_points row st
    = (Ok (data_points ++ twelve), st)
    ∧ NoDup ((fun e : entry => e !! "time") <$> twelve).
Proof.
  intros Hrow Hfilter Hyear Hy.
  destruct (multi_annual_record_inv parts row Hrow)
    as (sid & ref & _ & _ & Hsid & Href & Hm).
  rewrite Hsid in Hfilter. rewrite Href in Hyear. simpl in Hfilter, Hyear.
  eexists. split.
  { apply (multi_annual_row_step_ok _ _ _ (VStr sid) (VStr ref) y);
      try done.
    eapply Forall_impl; [exact Hm|]. intros nk (f & _ & ->). eauto. }
  rewrite <- list_fmap_compose.
  apply (NoDup_fmap_2_strong _ month_keys); [|by compute_done].
  intros [n1 k1] [n2 k2] H1 H2 Heq. unfold compose in Heq.
  destruct (month_entry_point (VStr sid) (VStr ref)
              (default VNone (row !! k1)) y n1) as (Ht1 & _).
  destruct (month_entry_point (VStr sid) (VStr ref)
              (default VNone (row !! k2)) y n2) as (Ht2 & _).
  cbn [fst snd] in Heq. rewrite Ht1, Ht2 in Heq. injection Heq as ->.
  revert H1 H2. rewrite !list_elem_of_In. simpl. intros H1 H2.
  repeat destruct H1 as [H1|H1]; try done; injection H1 as <- <-;
    repeat destruct H2 as [H2|H2]; try done; by injection H2 as <-.
Qed.

Lemma twelve_points_distinct_times_witness :
  multi_annual_record means_parts = Ok means_row
  ∧ ∃ twelve,
      multi_annual_row_step None [] means_row st0 = (Ok ([] ++ twelve), st0)
      ∧ NoDup ((fun e : entry => e !! "time") <$> twelve).
Proof.
  assert (multi_annual_record means_parts = Ok means_row) as Hrow
    by exact (eq_refl (Ok means_row)
              <: multi_annual_record means_parts = Ok means_row).
  split; [exact Hrow|].
  apply (twelve_points_distinct_times None [] means_parts means_row 1961 st0
           Hrow); [vm_compute; reflexivity..|lia].
Defined.

(** ** More on source selection *)

Lemma zfill_long (w : nat) (s : string) :
  (w ≤ String.length s)%nat → Str.zfill w s = s.
Proof.
  intros H. unfold Str.zfill.
  by destruct (Nat.leb_spec w (String.length s)); [|lia].
Qed.

(** X14.  Padding is idempotent, so historical mode selects the same
    archives for a station id and for its padded form; an id of five or
    more characters is matched as it is. *)
Theorem historical_padding_idempotent (prefix station_id : string)
    (all_filenames : list string) :
  Str.zfill 5 (Str.zfill 5 station_id) = Str.zfill 5 station_id
  ∧ station_files prefix all_filenames (Str.zfill 5 station_id)
    = station_files prefix all_filenames station_id
  ∧ ((5 ≤ String.length station_id)%nat →
     Str.zfill 5 station_id = station_id).
Proof.
  assert (Str.zfill 5 (Str.zfill 5 station_id) = Str.zfill 5 station_id)
    as Hidem by (apply zfill_long; rewrite length_zfill; lia).
  split; [exact Hidem|]. split; [|apply zfill_long].
  unfold station_files. by rewrite Hidem.
Qed.

Lemma str_app_inv_length (s1 s2 t1 t2 : string) :
  String.length s1 = String.length s2 →
  s1 +:+ t1 = s2 +:+ t2 → s1 = s2.
Proof.
  revert s2. induction s1 as [|a s1 IH]; intros [|b s2] Hlen Heq;
    simpl in Hlen; try done.
  rewrite !str_app_cons in Heq. injection Heq as -> Heq.
  f_equal. apply IH; [lia|done].
Qed.

Lemma str_app_assoc (s t u : string) : (s +:+ t) +:+ u = s +:+ t +:+ u.
Proof.
  induction s as [|a s IH]; [done|]. rewrite !str_app_cons. by rewrite IH.
Qed.

(** X15.  For station ids of at most five characters, an archive name is
    selected for two stations only if their padded ids are the same: no
    archive is fetched for two different stations. *)
Theorem station_files_disjoint (prefix : string) (all_filenames : list string)
    (id1 id2 fn : string) :
  (String.length id1 ≤ 5)%nat → (String.length id2 ≤ 5)%nat →
  fn ∈ station_files prefix all_filenames id1 →
  fn ∈ station_files prefix all_filenames id2 →
  Str.zfill 5 id1 = Str.zfill 5 id2.
Proof.
  intros Hl1 Hl2 [_ H1]%elem_of_station_files [_ H2]%elem_of_station_files.
  apply startswith_spec in H1 as [r1 ->].
  apply startswith_spec in H2 as [r2 H2].
  rewrite !str_app_assoc in H2. apply (inj (String.app prefix)) in H2.
  eapply str_app_inv_length; [|exact H2].
  rewrite !length_zfill. lia.
Qed.

Lemma station_files_disjoint_witness :
  Str.zfill 5 "91" = Str.zfill 5 "091".
Proof.
  apply (station_files_disjoint "10minutenwerte_TU_"
           ["10minutenwerte_TU_00091_x_hist.zip"] "91" "091"
           "10minutenwerte_TU_00091_x_hist.zip");
    [simpl; lia|simpl; lia|vm_compute; left|vm_compute; left].
Defined.

(** X16.  No name starts with the prefixes of both data types: the archives
    historical mode lists for precipitation and for temperature are
    different ones. *)
Theorem type_prefixes_exclusive (fn suffix : string) :
  ¬ (is_Some (matching_href (type_prefix precipitation) suffix (Some fn))
     ∧ is_Some (matching_href (type_prefix temperature) suffix (Some fn))).
Proof.
  unfold matching_href. intros [[? H1] [? H2]].
  destruct (Str.nonempty fn); [|done]. simpl in *.
  destruct (Str.startswith fn (type_prefix precipitation)) eqn:Hp; [|done].
  destruct (Str.startswith fn (type_prefix temperature)) eqn:Ht; [|done].
  apply startswith_spec in Hp as [r ->]. vm_compute in Ht. done.
Qed.

(** ** The roster *)

Lemma fmap_item_id_str (ids : list string) :
  item_id <$> (ItemStr <$> ids) = ids.
Proof.
  induction ids as [|i ids IH]; [done|].
  rewrite !fmap_cons. by rewrite IH.
Qed.

Lemma foldl_item_str (ids : list string) (m : gmap string string) :
  foldl (fun m i => <[item_id i := EmptyString]> m) m (ItemStr <$> ids)
  = foldl (fun m id => <[id := EmptyString]> m) m ids.
Proof.
  revert m. induction ids as [|i ids IH]; intros m; [done|].
  rewrite fmap_cons. simpl. apply IH.
Qed.

Lemma read_stations_strings (ids : list string) :
  read_stations (ItemStr <$> ids)
  = Ok (ids,
        foldl (fun (m : gmap string string) id => <[id := EmptyString]> m)
          ∅ ids).
Proof.
  unfold read_stations.
  rewrite fmap_item_id_str, foldl_item_str.
  assert (existsb is_dict (ItemStr <$> ids) = false) as ->.
  { induction ids as [|i ids IH]; [done|]. by rewrite fmap_cons. }
  destruct ids as [|i ids]; [done|]. by rewrite fmap_cons.
Qed.

Lemma read_stations_dicts (items : list (string * string)) :
  read_stations ((fun i => ItemDict i.1 i.2) <$> items)
  = Ok (fst <$> items,
        foldl (fun (m : gmap string string) i => <[i.1 := i.2]> m) ∅ items).
Proof.
  unfold read_stations.
  assert (forallb is_dict ((fun i => ItemDict i.1 i.2) <$> items) = true)
    as ->.
  { induction items as [|i items IH]; [done|]. by rewrite fmap_cons. }
  f_equal. f_equal.
  - induction items as [|i items IH]; [done|].
    rewrite !fmap_cons. by rewrite IH.
  - generalize (∅ : gmap string string).
    induction items as [|i items IH]; intros m; [done|].
    rewrite fmap_cons. simpl. apply IH.
Qed.

(** X17.  A roster given as bare ids and the same roster given as mappings
    with empty names are read alike: the same ids and the same station map,
    hence the same run. *)
Theorem roster_format_invariant (net : remote) (md : mode)
    (ids : list string) (st : state) :
  read_stations (ItemStr <$> ids)
  = read_stations ((fun id => ItemDict id EmptyString) <$> ids)
  ∧ main net md (StationsList (ItemStr <$> ids)) st
    = main net md
        (StationsList ((fun id => ItemDict id EmptyString) <$> ids)) st.
Proof.
  assert (read_stations (ItemStr <$> ids)
          = read_stations ((fun id => ItemDict id EmptyString) <$> ids))
    as Heq.
  { rewrite read_stations_strings.
    pose proof (read_stations_dicts ((fun id => (id, EmptyString)) <$> ids))
      as Hd.
    rewrite <- !list_fmap_compose in Hd. unfold compose in Hd. simpl in Hd.
    rewrite Hd. f_equal. f_equal.
    - clear Hd. induction ids as [|i ids IH]; [done|].
      rewrite fmap_cons. by f_equal.
    - clear Hd. generalize (∅ : gmap string string).
      induction ids as [|i ids IH]; intros m; [done|].
      rewrite fmap_cons. simpl. apply IH. }
  split; [exact Heq|]. unfold main, bind, lift. by rewrite Heq.
Qed.

(** X18.  A configuration the script cannot read ends the run before
    anything is fetched or written, whatever the remote side holds: a
    [stations] entry that is no list is reported in the log, a list that
    mixes bare ids and mappings raises [TypeError]. *)
Theorem unreadable_roster_fetches_nothing (net : remote) (md : mode)
    (st : state) :
  main net md StationsOther st
  = (Ok tt,
     mkState (sink st)
       (log st ++ [(ERROR, "Invalid stations configuration format")]))
  ∧ ∀ items id1 id2 name,
      ItemStr id1 ∈ items → ItemDict id2 name ∈ items →
      main net md (StationsList items) st = (Raise TypeError, st).
Proof.
  split; [done|]. intros items id1 id2 name Hs Hd.
  unfold main, bind, lift, read_stations.
  assert (forallb is_dict items = false) as ->.
  { apply not_true_iff_false. intros Hall.
    rewrite forallb_forall in Hall.
    by specialize (Hall (ItemStr id1) (proj1 (list_elem_of_In _ _) Hs)). }
  assert (existsb is_dict items = true) as ->; [|done].
  apply existsb_exists. exists (ItemDict id2 name).
  split; [by apply list_elem_of_In|done].
Qed.

(** ** Archives *)

(** X19.  A fetched body that is no zip archive is not recovered: the fetch
    of that archive raises [BadZipFile] with nothing written or logged, and
    a recent or now pass ends there, before the remaining stations. *)
Theorem not_a_zip_aborts (net : remote) (dt : data_type)
    (period : period_kind) (station_map : gmap string string)
    (station_id : string) (rest : list string) (c : payload) (st : state) :
  net (match period with recent => RECENT_URLS dt | now => NOW_URLS dt end
       +:+ recent_or_now_name dt period station_id) = Body c →
  members c = None →
  fetch_and_write_zip net
    (match period with recent => RECENT_URLS dt | now => NOW_URLS dt end
     +:+ recent_or_now_name dt period station_id) dt station_map st
  = (Raise BadZipFile, st)
  ∧ fetch_recent_or_now_10min_data net (station_id :: rest) dt period
      station_map st
    = (Raise BadZipFile, st).
Proof.
  intros Hnet Hm.
  assert (fetch_and_write_zip net
            (match period with recent => RECENT_URLS dt | now => NOW_URLS dt end
             +:+ recent_or_now_name dt period station_id) dt station_map st
          = (Raise BadZipFile, st)) as Hz.
  { unfold fetch_and_write_zip, bind, try_m, download_file, ret.
    by rewrite Hnet, Hm. }
  split; [exact Hz|].
  unfold fetch_recent_or_now_10min_data, for_each. simpl.
  unfold bind at 1. by rewrite Hz.
Qed.

Lemma not_a_zip_aborts_witness :
  fetch_recent_or_now_10min_data net_not_zip ["00091"; "00103"]
    precipitation now ∅ st0
  = (Raise BadZipFile, st0).
Proof.
  apply (not_a_zip_aborts net_not_zip precipitation now ∅ "00091" ["00103"]
           (mkPayload "not an archive" None []) st0); reflexivity.
Defined.

Lemma for_each_skip {A} (f : A → M unit) (xs : list A) (st : state) :
  Forall (fun x => ∀ st, f x st = (Ok tt, st)) xs →
  for_each xs f st = (Ok tt, st).
Proof.
  unfold for_each. induction 1 as [|x xs Hx _ IH]; [done|].
  simpl. unfold bind at 1. by rewrite Hx.
Qed.

(** X20.  Only members whose name ends in [.txt] are decoded: an archive
    without such a member is fetched and left alone, with nothing written
    and nothing logged. *)
Theorem no_txt_member_no_write (net : remote) (full_url : string)
    (dt : data_type) (station_map : gmap string string) (c : payload)
    (infolist : list (string * string)) (st : state) :
  net full_url = Body c →
  members c = Some infolist →
  Forall (fun m : string * string => Str.endswith m.1 ".txt" = false)
    infolist →
  fetch_and_write_zip net full_url dt station_map st = (Ok tt, st).
Proof.
  intros Hnet Hm Hall.
  unfold fetch_and_write_zip, bind, try_m, download_file, ret.
  rewrite Hnet, Hm. apply for_each_skip.
  eapply Forall_impl; [exact Hall|]. intros [name txt] Hn st1. simpl in Hn.
  by rewrite Hn.
Qed.

Lemma no_txt_member_no_write_witness :
  fetch_and_write_zip net_no_txt "https://example.org/a.zip" precipitation ∅
    st0 = (Ok tt, st0).
Proof.
  apply (no_txt_member_no_write net_no_txt "https://example.org/a.zip"
           precipitation ∅
           (mkPayload EmptyString (Some [("readme.pdf", "1;2;3")]) [])
           [("readme.pdf", "1;2;3")] st0); [reflexivity..|].
  repeat constructor.
Defined.






(** X22.  In historical mode a station without a matching archive is no
    error: when the listing holds no match for any of the stations, the pass
    returns with nothing written and nothing logged. *)
Theorem historical_no_match (net : remote) (station_ids : list string)
    (dt : data_type) (station_map : gmap string string) (page : payload)
    (st : state) :
  net (HISTORICAL_URLS dt) = Body page →
  Forall
    (fun station_id =>
       station_files (type_prefix dt)
         (omap (matching_href (type_prefix dt) "_hist.zip") (hrefs page))
         station_id = [])
    station_ids →
  fetch_historical_10min_data net station_ids dt station_map st = (Ok tt, st).
Proof.
  intros Hnet Hnone. unfold fetch_historical_10min_data, bind at 1.
  rewrite (list_dwd_files_ok _ _ _ _ page) by done.
  apply for_each_skip. eapply Forall_impl; [exact Hnone|].
  intros station_id Hs st1. simpl in Hs. by rewrite Hs.
Qed.

Lemma historical_no_match_witness :
  fetch_historical_10min_data (fun _ => Body example_listing) ["00103"]
    precipitation ∅ st0 = (Ok tt, st0).
Proof.
  apply (historical_no_match (fun _ => Body example_listing) ["00103"]
           precipitation ∅ example_listing st0); [reflexivity|].
  repeat constructor.
Defined.

(** X23.  The points synthesized from a decoded record carry two fields
    only, the reference period and the month's value: the year value the
    decoder read is not written. *)
Theorem monthly_point_fields (station_ids : option (list string))
    (data_points : list entry) (parts : list string) (row : entry) (y : Z)
    (st : state) :
  multi_annual_record parts = Ok row →
  filtered_out station_ids (default VNone (row !! "station_id")) = false →
  start_year_of (default VNone (row !! "reference_period")) = Ok y →
  1 ≤ y ≤ 9999 →
  ∃ twelve,
    multi_annual_row_step station_ids data_points row st
    = (Ok (data_points ++ twelve), st)
    ∧ Forall
        (fun e : entry =>
           ∀ measurement station_map,
             ∃ f,
               p_fields (build_point measurement station_map e).1
               = <["reference_period" := default VNone
                                           (row !! "reference_period")]>
                   {["value" := VFloat f]})
        twelve.
Proof.
  intros Hrow Hfilter Hyear Hy.
  destruct (multi_annual_record_inv parts row Hrow)
    as (sid & ref & _ & _ & Hsid & Href & Hm).
  rewrite Hsid in Hfilter. rewrite Href in Hyear. simpl in Hfilter, Hyear.
  eexists. split.
  { apply (multi_annual_row_step_ok _ _ _ (VStr sid) (VStr ref) y);
      try done.
    eapply Forall_impl; [exact Hm|]. intros nk (f & _ & ->). eauto. }
  apply Forall_fmap. eapply Forall_impl; [exact Hm|].
  intros [n k] (f & _ & Hf) measurement station_map. exists f.
  unfold compose. change (n, k).1 with n. change (n, k).2 with k in *.
  rewrite Hf, Href.
  destruct (build_point_spec measurement station_map
              (month_entry (VStr sid) (VStr ref) y
                 (n, default VNone (Some (VFloat f)))))
    as (_ & -> & _).
  vm_compute. reflexivity.
Qed.

Lemma monthly_point_fields_witness :
  multi_annual_record means_parts = Ok means_row
  ∧ ∃ twelve,
      multi_annual_row_step None [] means_row st0 = (Ok ([] ++ twelve), st0).
Proof.
  assert (multi_annual_record means_parts = Ok means_row) as Hrow
    by exact (eq_refl (Ok means_row)
              <: multi_annual_record means_parts = Ok means_row).
  split; [exact Hrow|].
  destruct (monthly_point_fields None [] means_parts means_row 1961 st0 Hrow)
    as (twelve & Hrun & _); [vm_compute; reflexivity..|lia|].
  exists twelve. exact Hrun.
Defined.
